(** * The PDF endpoint of the GTIE services backend (server.py)

    A shallow embedding of [generate_pdf], the handler of
    [POST /api/generate-pdf]: the story of reportlab flowables it assembles
    from a (title, content, type) triple, and the Content-Disposition
    header of its response.

    Python strings are sequences of Unicode code points.  The values that
    [json.loads] produces are a small universe of Python values; the
    decoder follows CPython's [json.decoder] and [json.scanner], its
    scanner runs on fuel, and the fuel [loads] gives it is shown to be
    enough.  The calls into reportlab and Starlette are calls through an
    interface that says which of them raise: the handler guards some of
    those calls with [try]/[except] and leaves the others bare, and that
    difference is what several properties below are about.  Interpreter
    resource limits (recursion depth, the digit limit of [int]) are
    outside the model. *)

From Stdlib Require Import List NArith ZArith Bool String Ascii Lia.
Import ListNotations.

Set Implicit Arguments.
Set Warnings "-register-all".

(* ================================================================== *)
(** ** Python strings *)

Module Str.

Local Open Scope N_scope.

(** A [str] is the list of its code points. *)
Definition str := list N.

Definition eqb (a b : str) : bool :=
  if list_eq_dec N.eq_dec a b then true else false.

(** Source text of this file is UTF-8; [utf8] reads a literal's bytes as
    code points. *)
Fixpoint utf8 (bs : list N) : str :=
  match bs with
  | [] => []
  | b0 :: r0 =>
    if b0 <? 192 then b0 :: utf8 r0
    else match r0 with
    | [] => [b0]
    | b1 :: r1 =>
      if b0 <? 224 then ((b0 mod 32) * 64 + b1 mod 64) :: utf8 r1
      else match r1 with
      | [] => [b0; b1]
      | b2 :: r2 =>
        if b0 <? 240
        then (((b0 mod 16) * 64 + b1 mod 64) * 64 + b2 mod 64) :: utf8 r2
        else match r2 with
        | [] => [b0; b1; b2]
        | b3 :: r3 =>
          ((((b0 mod 8) * 64 + b1 mod 64) * 64 + b2 mod 64) * 64 + b3 mod 64)
            :: utf8 r3
        end
      end
    end
  end.

Definition u (s : string) : str :=
  utf8 (map N_of_ascii (list_ascii_of_string s)).

Arguments u : simpl never.

(** [str.replace(old, new)] for one-character [old] and [new]. *)
Definition replace (old new : N) (s : str) : str :=
  map (fun c => if c =? old then new else c) s.

(** [str.split(sep)] for a one-character separator: always at least one
    piece, one more piece than there are separators. *)
Fixpoint split (sep : N) (s : str) : list str :=
  match s with
  | [] => [[]]
  | c :: s' =>
    if c =? sep then [] :: split sep s'
    else match split sep s' with
         | l :: ls => (c :: l) :: ls
         | [] => [[c]]
         end
  end.

(** [sep.join(parts)] for a one-character separator. *)
Fixpoint join (sep : N) (parts : list str) : str :=
  match parts with
  | [] => []
  | [p] => p
  | p :: ps => p ++ sep :: join sep ps
  end.

(** [str.isspace] on one code point (CPython's _PyUnicode_IsWhitespace). *)
Definition isspace (c : N) : bool :=
  ((9 <=? c) && (c <=? 13)) || ((28 <=? c) && (c <=? 32))
  || (c =? 133) || (c =? 160) || (c =? 5760)
  || ((8192 <=? c) && (c <=? 8202))
  || (c =? 8232) || (c =? 8233) || (c =? 8239) || (c =? 8287)
  || (c =? 12288).

Fixpoint lstrip (s : str) : str :=
  match s with
  | c :: s' => if isspace c then lstrip s' else s
  | [] => []
  end.

Definition rstrip (s : str) : str := rev (lstrip (rev s)).

(** [str.strip()] with no argument. *)
Definition strip (s : str) : str := rstrip (lstrip s).

(** Truth value of a string: non-empty. *)
Definition truthy (s : str) : bool :=
  match s with [] => false | _ :: _ => true end.

(** [str.lower] restricted to the ASCII letters. *)
Definition lower (s : str) : str :=
  map (fun c => if (65 <=? c) && (c <=? 90) then c + 32 else c) s.

End Str.

Abbreviation str := Str.str.
Abbreviation u := Str.u.

(* ================================================================== *)
(** ** Exceptions *)

Inductive exn : Type :=
| JSONDecodeError
| RecursionError
| TypeError
| AttributeError
| ValueError
| LayoutError
| UnicodeEncodeError.

Inductive result (A : Type) : Type :=
| Ok (a : A)
| Raise (e : exn).

Arguments Ok {A} a.
Arguments Raise {A} e.

Definition bind {A B} (m : result A) (k : A -> result B) : result B :=
  match m with
  | Ok a => k a
  | Raise e => Raise e
  end.

(** [try: body  except: handler] with a bare [except], which catches
    every exception. *)
Definition try_except {A} (body : result A) (handler : result A) : result A :=
  match body with
  | Ok a => Ok a
  | Raise _ => handler
  end.

Declare Scope py_scope.
Delimit Scope py_scope with py.
Notation "x <- m ;; k" := (bind m (fun x => k))
  (at level 61, m at next level, right associativity) : py_scope.
Notation "' p <- m ;; k" := (bind m (fun x => match x with p => k end))
  (at level 61, p pattern, m at next level, right associativity) : py_scope.
Notation "m ;;; k" := (bind m (fun _ => k))
  (at level 61, right associativity) : py_scope.

Fixpoint mapM {A B} (f : A -> result B) (l : list A) : result (list B) :=
  match l with
  | [] => Ok []
  | a :: l' =>
    bind (f a) (fun b => bind (mapM f l') (fun bs => Ok (b :: bs)))
  end.

(* ================================================================== *)
(** ** Python values *)

(** A float is kept as the decimal literal it was read from; the handler
    only ever asks for its truth value. *)
Inductive pyfloat : Type :=
| FDec (neg : bool) (mant : N) (exp10 : Z)
| FInf (neg : bool)
| FNaN.

Inductive pyval : Type :=
| PyNone
| PyBool (b : bool)
| PyInt (z : Z)
| PyFloat (f : pyfloat)
| PyStr (s : str)
| PyList (l : list pyval)
| PyDict (d : list (str * pyval)).

(** [bool(float(literal))]: false when the literal rounds to zero in
    binary64, that is when its magnitude is at most 2^-1075. *)
Definition float_truthy (f : pyfloat) : bool :=
  match f with
  | FDec _ mant exp10 =>
    if (mant =? 0)%N then false
    else if (0 <=? exp10)%Z then true
    else (10 ^ (- exp10) <? Z.of_N mant * 2 ^ 1075)%Z
  | FInf _ => true
  | FNaN => true
  end.

(** Python's truth value testing. *)
Definition truthy (v : pyval) : bool :=
  match v with
  | PyNone => false
  | PyBool b => b
  | PyInt z => negb (z =? 0)%Z
  | PyFloat f => float_truthy f
  | PyStr s => Str.truthy s
  | PyList l => match l with [] => false | _ => true end
  | PyDict d => match d with [] => false | _ => true end
  end.

(** [d[k] = v] on a dict kept in insertion order. *)
Fixpoint dict_set (d : list (str * pyval)) (k : str) (v : pyval)
  : list (str * pyval) :=
  match d with
  | [] => [(k, v)]
  | (k', v') :: d' =>
    if Str.eqb k' k then (k', v) :: d' else (k', v') :: dict_set d' k v
  end.

(** [dict(pairs)] *)
Definition dict_of_pairs (pairs : list (str * pyval)) : list (str * pyval) :=
  fold_left (fun d kv => dict_set d (fst kv) (snd kv)) pairs [].

Fixpoint dict_lookup (d : list (str * pyval)) (k : str) : option pyval :=
  match d with
  | [] => None
  | (k', v) :: d' => if Str.eqb k' k then Some v else dict_lookup d' k
  end.

(** [d.get(k, default)] on a dict. *)
Definition dict_get (d : list (str * pyval)) (k : str) (default : pyval)
  : pyval :=
  match dict_lookup d k with
  | Some v => v
  | None => default
  end.

(** [obj.get(k, default)]: only a dict has the method. *)
Definition py_get (obj : pyval) (k : str) (default : pyval) : result pyval :=
  match obj with
  | PyDict d => Ok (dict_get d k default)
  | _ => Raise AttributeError
  end.

(** The items a [for] loop visits: the elements of a list, the keys of a
    dict, the characters of a string; anything else is not iterable. *)
Definition py_iter (v : pyval) : result (list pyval) :=
  match v with
  | PyList l => Ok l
  | PyDict d => Ok (map (fun kv => PyStr (fst kv)) d)
  | PyStr s => Ok (map (fun c => PyStr [c]) s)
  | _ => Raise TypeError
  end.

Definition is_dict (v : pyval) : bool :=
  match v with PyDict _ => true | _ => false end.

(* ================================================================== *)
(** ** json.loads *)

Module Json.

Local Open Scope N_scope.
Local Open Scope py_scope.

Definition is_ws (c : N) : bool :=
  (c =? 32) || (c =? 9) || (c =? 10) || (c =? 13).

Fixpoint skip_ws (s : str) : str :=
  match s with
  | c :: s' => if is_ws c then skip_ws s' else s
  | [] => []
  end.

Definition is_digit (c : N) : bool := (48 <=? c) && (c <=? 57).

Fixpoint span_digits (s : str) : str * str :=
  match s with
  | c :: s' =>
    if is_digit c then let (ds, r) := span_digits s' in (c :: ds, r)
    else ([], s)
  | [] => ([], [])
  end.

Definition digits_value (ds : str) : N :=
  fold_left (fun acc d => acc * 10 + (d - 48)) ds 0.

Fixpoint strip_prefix (p s : str) : option str :=
  match p, s with
  | [], _ => Some s
  | a :: p', b :: s' => if a =? b then strip_prefix p' s' else None
  | _ :: _, [] => None
  end.

(** [s] with its first character removed, when that character is [c]. *)
Definition starts_with (c : N) (s : str) : option str :=
  match s with
  | c' :: r => if c' =? c then Some r else None
  | [] => None
  end.

Definition hex_digit (c : N) : option N :=
  if (48 <=? c) && (c <=? 57) then Some (c - 48)
  else if (97 <=? c) && (c <=? 102) then Some (c - 87)
  else if (65 <=? c) && (c <=? 70) then Some (c - 55)
  else None.

Definition hex4 (a b c d : N) : option N :=
  match hex_digit a, hex_digit b, hex_digit c, hex_digit d with
  | Some x, Some y, Some z, Some w => Some (((x * 16 + y) * 16 + z) * 16 + w)
  | _, _, _, _ => None
  end.

Definition is_high_surrogate (c : N) : bool := (55296 <=? c) && (c <=? 56319).
Definition is_low_surrogate (c : N) : bool := (56320 <=? c) && (c <=? 57343).

(** The simple escapes after a backslash (BACKSLASH in json.decoder). *)
Definition backslash (c : N) : option N :=
  match c with
  | 34 => Some 34 | 92 => Some 92 | 47 => Some 47
  | 98 => Some 8 | 102 => Some 12 | 110 => Some 10
  | 114 => Some 13 | 116 => Some 9
  | _ => None
  end.

(** [scanstring s]: [s] starts just after the opening quote; the result is
    the decoded string and what follows the closing quote.  Strict mode:
    a literal control character is an error.  A [\u] escape of a high
    surrogate joins with a [\u] escape of a low surrogate that follows
    it. *)
Fixpoint scanstring (s : str) : result (str * str) :=
  match s with
  | [] => Raise JSONDecodeError
  | c :: rest =>
    if c =? 34 then Ok ([], rest)
    else if c =? 92 then
      match rest with
      | [] => Raise JSONDecodeError
      | esc :: rest1 =>
        if esc =? 117 then
          match rest1 with
          | a :: b :: c' :: d :: rest2 =>
            match hex4 a b c' d with
            | None => Raise JSONDecodeError
            | Some uni =>
              match rest2 with
              | bs :: lu :: a2 :: b2 :: c2 :: d2 :: rest3 =>
                match (if (bs =? 92) && (lu =? 117) && is_high_surrogate uni
                       then hex4 a2 b2 c2 d2 else None) with
                | Some uni2 =>
                  if is_low_surrogate uni2
                  then '(cs, r) <- scanstring rest3 ;;
                       Ok ((65536 + ((uni - 55296) * 1024 + (uni2 - 56320)))
                             :: cs, r)
                  else '(cs, r) <- scanstring rest2 ;; Ok (uni :: cs, r)
                | None => '(cs, r) <- scanstring rest2 ;; Ok (uni :: cs, r)
                end
              | _ => '(cs, r) <- scanstring rest2 ;; Ok (uni :: cs, r)
              end
            end
          | _ => Raise JSONDecodeError
          end
        else
          match backslash esc with
          | Some ch => '(cs, r) <- scanstring rest1 ;; Ok (ch :: cs, r)
          | None => Raise JSONDecodeError
          end
      end
    else if c <? 32 then Raise JSONDecodeError
    else '(cs, r) <- scanstring rest ;; Ok (c :: cs, r)
  end.

(** The integer part of NUMBER_RE: 0, or digits that do not start
    with 0. *)
Definition int_part (s : str) : option (str * str) :=
  match starts_with 48 s with
  | Some r => Some ([48], r)
  | None =>
    match span_digits s with
    | ([], _) => None
    | (ds, r) => Some (ds, r)
    end
  end.

(** The fraction of NUMBER_RE: a dot and one or more digits, or
    nothing. *)
Definition frac_part (s : str) : option str * str :=
  match starts_with 46 s with
  | Some r =>
    match span_digits r with
    | ([], _) => (None, s)
    | (ds, r') => (Some ds, r')
    end
  | None => (None, s)
  end.

(** The exponent of NUMBER_RE: e or E, an optional sign and one or more
    digits, or nothing. *)
Definition exp_part (s : str) : option Z * str :=
  match s with
  | e :: r =>
    if (e =? 101) || (e =? 69) then
      let '(eneg, r') :=
        match starts_with 45 r, starts_with 43 r with
        | Some t, _ => (true, t)
        | None, Some t => (false, t)
        | None, None => (false, r)
        end in
      match span_digits r' with
      | ([], _) => (None, s)
      | (ds, r'') =>
        let v := Z.of_N (digits_value ds) in
        (Some (if eneg then (- v)%Z else v), r'')
      end
    else (None, s)
  | [] => (None, s)
  end.

(** NUMBER_RE at the head of [s]: an optional minus sign, the integer
    part, then the fraction and the exponent, each optional.  An integer
    literal gives an [int], a literal with a fraction or an exponent a
    [float]. *)
Definition match_number (s : str) : option (pyval * str) :=
  let '(neg, s1) :=
    match starts_with 45 s with
    | Some r => (true, r)
    | None => (false, s)
    end in
  match int_part s1 with
  | None => None
  | Some (ids, r1) =>
    let '(frac, r2) := frac_part r1 in
    let '(exp, r3) := exp_part r2 in
    match frac, exp with
    | None, None =>
      let v := Z.of_N (digits_value ids) in
      Some (PyInt (if neg then (- v)%Z else v), r3)
    | _, _ =>
      let fds := match frac with Some f => f | None => [] end in
      let e := match exp with Some e => e | None => 0%Z end in
      Some (PyFloat (FDec neg (digits_value (ids ++ fds))
                          (e - Z.of_nat (List.length fds))%Z), r3)
    end
  end.

(** The scanner on a value that is neither a string, an object nor an
    array: the constants and the numbers, in the order of
    [json.scanner]. *)
Definition scan_atom (s : str) : result (pyval * str) :=
  match strip_prefix (u "null") s with
  | Some r => Ok (PyNone, r)
  | None =>
  match strip_prefix (u "true") s with
  | Some r => Ok (PyBool true, r)
  | None =>
  match strip_prefix (u "false") s with
  | Some r => Ok (PyBool false, r)
  | None =>
  match match_number s with
  | Some vr => Ok vr
  | None =>
  match strip_prefix (u "NaN") s with
  | Some r => Ok (PyFloat FNaN, r)
  | None =>
  match strip_prefix (u "Infinity") s with
  | Some r => Ok (PyFloat (FInf false), r)
  | None =>
  match strip_prefix (u "-Infinity") s with
  | Some r => Ok (PyFloat (FInf true), r)
  | None => Raise JSONDecodeError
  end end end end end end end.

(** The scanner: one JSON value at the head of [s].  The three functions
    recurse into one another through nested values; [fuel] bounds the
    nesting together with the number of members. *)
Fixpoint scan_once (fuel : nat) (s : str) {struct fuel}
  : result (pyval * str) :=
  match fuel with
  | O => Raise RecursionError
  | S fuel' =>
    match starts_with 34 s, starts_with 123 s, starts_with 91 s with
    | Some r, _, _ => '(cs, r') <- scanstring r ;; Ok (PyStr cs, r')
    | None, Some r, _ =>
      match starts_with 125 (skip_ws r), starts_with 34 (skip_ws r) with
      | Some r', _ => Ok (PyDict [], r')
      | None, Some r' =>
        '(pairs, r'') <- object_members fuel' r' ;;
        Ok (PyDict (dict_of_pairs pairs), r'')
      | None, None => Raise JSONDecodeError
      end
    | None, None, Some r =>
      match starts_with 93 (skip_ws r) with
      | Some r' => Ok (PyList [], r')
      | None =>
        '(vs, r'') <- array_members fuel' (skip_ws r) ;; Ok (PyList vs, r'')
      end
    | None, None, None => scan_atom s
    end
  end

(** JSONArray's loop: [s] is at the first character of a value. *)
with array_members (fuel : nat) (s : str) {struct fuel}
  : result (list pyval * str) :=
  match fuel with
  | O => Raise RecursionError
  | S fuel' =>
    '(v, r) <- scan_once fuel' s ;;
    match starts_with 93 (skip_ws r), starts_with 44 (skip_ws r) with
    | Some r', _ => Ok ([v], r')
    | None, Some r' =>
      '(vs, r'') <- array_members fuel' (skip_ws r') ;; Ok (v :: vs, r'')
    | None, None => Raise JSONDecodeError
    end
  end

(** JSONObject's loop: [s] is just after the opening quote of a key. *)
with object_members (fuel : nat) (s : str) {struct fuel}
  : result (list (str * pyval) * str) :=
  match fuel with
  | O => Raise RecursionError
  | S fuel' =>
    '(key, r) <- scanstring s ;;
    match starts_with 58 (skip_ws r) with
    | None => Raise JSONDecodeError
    | Some r1 =>
      '(v, r2) <- scan_once fuel' (skip_ws r1) ;;
      match starts_with 125 (skip_ws r2), starts_with 44 (skip_ws r2) with
      | Some r3, _ => Ok ([(key, v)], r3)
      | None, Some r3 =>
        match starts_with 34 (skip_ws r3) with
        | Some r4 =>
          '(pairs, r5) <- object_members fuel' r4 ;; Ok ((key, v) :: pairs, r5)
        | None => Raise JSONDecodeError
        end
      | None, None => Raise JSONDecodeError
      end
    end
  end.

(** [json.loads(s)] for a [str]: a leading BOM is refused, white space is
    allowed around the one value, anything after it is extra data. *)
Definition loads (s : str) : result pyval :=
  match starts_with 65279 s with
  | Some _ => Raise JSONDecodeError
  | None =>
    '(v, r) <- scan_once (2 * List.length s + 2) (skip_ws s) ;;
    match skip_ws r with
    | [] => Ok v
    | _ :: _ => Raise JSONDecodeError
    end
  end.

(** A JSON text written with ['] where JSON has its double quote. *)
Definition js (s : string) : str := Str.replace 39 34 (u s).

End Json.

(* ================================================================== *)
(** ** reportlab and Starlette *)

Inductive color : Type :=
| HexColor (hex : str)
| whitesmoke
| beige
| lightgrey
| black.

(** A style of the sample style sheet, or a [ParagraphStyle] derived from
    a parent. *)
Inductive style : Type :=
| SampleStyle (name : str)
| ParagraphStyle (name : str) (parent : style)
    (fontSize : Z) (textColor : color) (spaceAfter : Z).

(** The commands of a [TableStyle]; a cell is (column, row). *)
Inductive cmd : Type :=
| BACKGROUND (start stop : Z * Z) (c : color)
| TEXTCOLOR (start stop : Z * Z) (c : color)
| ALIGN (start stop : Z * Z) (how : str)
| FONTNAME (start stop : Z * Z) (font : str)
| FONTSIZE (start stop : Z * Z) (size : Z)
| BOTTOMPADDING (start stop : Z * Z) (pad : Z)
| GRID (start stop : Z * Z) (width : Z) (c : color).

(** The flowables the handler puts into its story, as the arguments their
    constructors were given.  Lengths are in points. *)
Inductive flowable : Type :=
| Paragraph (text : str) (st : style)
| Spacer (width height : Z)
| Table (data : pyval) (colWidths : option (list Z)) (tstyle : list cmd).

Definition setStyle (t : flowable) (cmds : list cmd) : flowable :=
  match t with
  | Table data w st => Table data w (st ++ cmds)
  | other => other
  end.

Definition is_paragraph (f : flowable) : bool :=
  match f with Paragraph _ _ => true | _ => false end.

Definition is_table (f : flowable) : bool :=
  match f with Table _ _ _ => true | _ => false end.

Record Response : Type := {
  body : list flowable;
  media_type : str;
  headers : list (str * str)
}.

(** What the libraries accept is decided outside this repository.
    - [Paragraph(text, style)] reads [text] as markup when it is
      constructed and raises on text it cannot parse;
    - [Table(data, ...)] checks the shape of [data] when it is
      constructed ([is_grid] below says what it is known to take);
    - [doc.build(story)] lays the story out;
    - [StreamingResponse] encodes the values of its headers as latin-1
      and raises on a character outside it. *)
Class Libraries : Type := {
  Paragraph_accepts : str -> bool;
  Table_accepts : pyval -> option (list Z) -> bool;
  build_accepts : list flowable -> bool;
  header_accepts : str -> bool
}.

(** A grid: a first row with at least one cell, every row a list of as
    many cells, and column widths, when given, one per column.  [Table]
    takes every grid, whatever the cells hold. *)
Definition is_grid (data : pyval) (colWidths : option (list Z)) : bool :=
  match data with
  | PyList (PyList (c :: cells) :: rows) =>
    let n := List.length (c :: cells) in
    forallb (fun r => match r with
                      | PyList cs => Nat.eqb (List.length cs) n
                      | _ => false
                      end) rows
    && match colWidths with
       | None => true
       | Some ws => Nat.eqb (List.length ws) n
       end
  | _ => false
  end.

(** Libraries that accept everything. *)
Definition lenient : Libraries := {|
  Paragraph_accepts := fun _ => true;
  Table_accepts := fun _ _ => true;
  build_accepts := fun _ => true;
  header_accepts := fun _ => true
|}.

(** Libraries whose [Paragraph] takes only text without a tag: reportlab
    refuses, among others, a tag that is never closed. *)
Definition no_markup : Libraries := {|
  Paragraph_accepts := fun t => negb (existsb (N.eqb 60) t);
  Table_accepts := fun _ _ => true;
  build_accepts := fun _ => true;
  header_accepts := fun _ => true
|}.

(* ================================================================== *)
(** ** The handler *)

Record PDFContentModel : Type := {
  title : str;
  content : str;
  type : str
}.

Definition inch : Z := 72%Z.

Definition title_style : style :=
  ParagraphStyle (u "CustomTitle") (SampleStyle (u "Heading1"))
    24 (HexColor (u "#1a1a2e")) 30.

Definition Normal : style := SampleStyle (u "Normal").

Definition agenda_header : pyval :=
  PyList [PyStr (u "Título"); PyStr (u "Data"); PyStr (u "Hora");
          PyStr (u "Status")].

(** 2.5 inch, 1.5 inch, 1 inch, 1.5 inch *)
Definition agenda_colWidths : list Z :=
  [5 * inch / 2; 3 * inch / 2; 1 * inch; 3 * inch / 2]%Z.

Definition agenda_style : list cmd :=
  [ BACKGROUND (0, 0) (-1, 0) (HexColor (u "#0f3460"));
    TEXTCOLOR (0, 0) (-1, 0) whitesmoke;
    ALIGN (0, 0) (-1, -1) (u "CENTER");
    FONTNAME (0, 0) (-1, 0) (u "Helvetica-Bold");
    FONTSIZE (0, 0) (-1, 0) 14;
    BOTTOMPADDING (0, 0) (-1, 0) 12;
    BACKGROUND (0, 1) (-1, -1) beige;
    GRID (0, 0) (-1, -1) 1 black ]%Z.

Definition planilhas_style : list cmd :=
  [ BACKGROUND (0, 0) (-1, 0) (HexColor (u "#16213e"));
    TEXTCOLOR (0, 0) (-1, 0) whitesmoke;
    ALIGN (0, 0) (-1, -1) (u "CENTER");
    FONTNAME (0, 0) (-1, 0) (u "Helvetica-Bold");
    FONTSIZE (0, 0) (-1, 0) 12;
    BOTTOMPADDING (0, 0) (-1, 0) 12;
    BACKGROUND (0, 1) (-1, -1) lightgrey;
    GRID (0, 0) (-1, -1) 1 black ]%Z.

(** One row of the agenda table (lines 96-101): the four cells are
    evaluated from left to right. *)
Definition agenda_row (item : pyval) : result pyval :=
  (t <- py_get item (u "title") (PyStr []) ;;
   d <- py_get item (u "date") (PyStr []) ;;
   h <- py_get item (u "time") (PyStr []) ;;
   c <- py_get item (u "completed") PyNone ;;
   Ok (PyList [t; d; h;
               PyStr (if truthy c then u "Concluído" else u "Pendente")]))%py.

(** The filename of line 146. *)
Definition filename (t : str) : str := Str.replace 32 95 t ++ u ".pdf".

Section Handler.

Context {L : Libraries}.
Local Open Scope py_scope.

Definition Paragraph_new (text : str) (st : style) : result flowable :=
  if Paragraph_accepts text then Ok (Paragraph text st) else Raise ValueError.

Definition Table_new (data : pyval) (colWidths : option (list Z))
  : result flowable :=
  if is_grid data colWidths || Table_accepts data colWidths
  then Ok (Table data colWidths [])
  else Raise ValueError.

Definition build (story : list flowable) : result unit :=
  if build_accepts story then Ok tt else Raise LayoutError.

Definition StreamingResponse (pdf : list flowable) (mt : str)
    (hs : list (str * str)) : result Response :=
  if forallb (fun kv => header_accepts (snd kv)) hs
  then Ok {| body := pdf; media_type := mt; headers := hs |}
  else Raise UnicodeEncodeError.

(** Lines 85-88: the loop over the lines of a docs content. *)
Fixpoint docs_loop (lines : list str) (story : list flowable)
  : result (list flowable) :=
  match lines with
  | [] => Ok story
  | line :: rest =>
    if Str.truthy (Str.strip line) then
      p <- Paragraph_new line Normal ;;
      docs_loop rest ((story ++ [p]) ++ [Spacer 1 12])
    else docs_loop rest story
  end.

(** Lines 93-101: the parsed items and the rows made of them. *)
Definition agenda_rows (c : str) : result (list pyval) :=
  items <- Json.loads c ;;
  its <- py_iter items ;;
  mapM agenda_row its.

(** Lines 93-113: the body of the agenda [try], up to the styled table. *)
Definition agenda_table (c : str) : result flowable :=
  rows <- agenda_rows c ;;
  table <- Table_new (PyList (agenda_header :: rows))
                     (Some agenda_colWidths) ;;
  Ok (setStyle table agenda_style).

(** Lines 121-134: the body of the planilhas [try]. *)
Definition planilhas_body (c : str) (story : list flowable)
  : result (list flowable) :=
  rows <- Json.loads c ;;
  if truthy rows then
    table <- Table_new rows None ;;
    Ok (story ++ [setStyle table planilhas_style])
  else Ok story.

(** Lines 81-136: the content, by type. *)
Definition content_blocks (data : PDFContentModel) (story : list flowable)
  : result (list flowable) :=
  if Str.eqb (type data) (u "docs") then
    docs_loop (Str.split 10 (content data)) story
  else if Str.eqb (type data) (u "agenda") then
    try_except
      (table <- agenda_table (content data) ;; Ok (story ++ [table]))
      (p <- Paragraph_new (content data) Normal ;; Ok (story ++ [p]))
  else if Str.eqb (type data) (u "planilhas") then
    try_except
      (planilhas_body (content data) story)
      (p <- Paragraph_new (content data) Normal ;; Ok (story ++ [p]))
  else Ok story.

(** Lines 62-147.  The buffer, the page size and the style sheet decide
    nothing here; the body of the response stands for the PDF built from
    the story. *)
Definition generate_pdf (data : PDFContentModel) : result Response :=
  let story := [] in
  p <- Paragraph_new (title data) title_style ;;
  let story := story ++ [p] in
  let story := story ++ [Spacer 1 12] in
  story <- content_blocks data story ;;
  build story ;;;
  StreamingResponse story (u "application/pdf")
    [(u "Content-Disposition",
      u "attachment; filename=" ++ filename (title data))].

End Handler.

Arguments generate_pdf L data : clear implicits.

(* ================================================================== *)
(** ** Vocabulary of the properties *)

(** The title paragraph and the spacer after it (lines 78-79). *)
Definition title_blocks (t : str) : list flowable :=
  [Paragraph t title_style; Spacer 1 12].

(** The response that carries [story] for a request titled [t]. *)
Definition response (story : list flowable) (t : str) : Response :=
  {| body := story;
     media_type := u "application/pdf";
     headers := [(u "Content-Disposition",
                  u "attachment; filename=" ++ filename t)] |}.

(** The libraries take every paragraph of [story], the story itself and
    the header of a request titled [t]. *)
Definition libraries_accept (L : Libraries) (story : list flowable) (t : str)
  : bool :=
  forallb (fun f => match f with
                    | Paragraph text _ => Paragraph_accepts text
                    | _ => true
                    end) story
  && build_accepts story
  && header_accepts (u "attachment; filename=" ++ filename t).

(** A line of a docs content that is not blank. *)
Definition nonblank (line : str) : bool := Str.truthy (Str.strip line).

(** The row the agenda table shows for the record [d]. *)
Definition record_row (d : list (str * pyval)) : pyval :=
  PyList [dict_get d (u "title") (PyStr []);
          dict_get d (u "date") (PyStr []);
          dict_get d (u "time") (PyStr []);
          PyStr (if truthy (dict_get d (u "completed") PyNone)
                 then u "Concluído" else u "Pendente")].

(** An item of the agenda and the row made of it. *)
Definition row_of_record (item row : pyval) : Prop :=
  exists d, item = PyDict d /\ row = record_row d.

(** A scanner run on a text of [n] characters went well: it stopped on a
    shorter rest, or it refused the text. *)
Definition scans {A} (n : nat) (m : result (A * str)) : Prop :=
  match m with
  | Ok (_, r) => List.length r < n
  | Raise e => e = JSONDecodeError
  end.

(** A text of five lines, three of them blank. *)
Definition five_lines : str :=
  Str.join 10 [u "um"; []; u "  "; u " dois "; []].

(** An agenda of two records, the second without a title or a time. *)
Definition two_records : list pyval :=
  [PyDict [(u "title", PyStr (u "Aula")); (u "date", PyStr (u "2024-03-01"));
           (u "time", PyStr (u "08:30")); (u "completed", PyInt 1)];
   PyDict [(u "date", PyStr (u "2024-03-02")); (u "completed", PyList [])]].

Definition two_records_request : PDFContentModel :=
  {| title := u "Semana 9";
     content := Json.js
       "[{'title':'Aula','date':'2024-03-01','time':'08:30','completed':1},
         {'date':'2024-03-02','completed':[]}]";
     type := u "agenda" |}.

(** The end-to-end example of the specification. *)
Definition example_request : PDFContentModel :=
  {| title := u "Relatório";
     content := Json.js
"[{'title':'Reunião','date':'2024-01-10','time':'10:00','completed':true}]";
     type := u "agenda" |}.

(* ================================================================== *)
(** ** The configuration of the application *)

(** Line 155: [os.environ.get('CORS_ORIGINS', '*').split(',')], where
    [env] is the value of the variable when it is set. *)
Definition allow_origins (env : option str) : list str :=
  Str.split 44 (match env with Some v => v | None => u "*" end).

(** A library takes the text of [f] when [f] is a paragraph. *)
Definition text_accepted (L : Libraries) (f : flowable) : bool :=
  match f with
  | Paragraph text _ => Paragraph_accepts text
  | _ => true
  end.

(** The content blocks the handler means to append for a request, each
    paragraph as its constructor is called: the lines of a docs content
    that are not blank, the table of an agenda or of a spreadsheet, or the
    raw content where the [try] raised. *)
Definition planned_blocks (L : Libraries) (data : PDFContentModel)
  : list flowable :=
  if Str.eqb (type data) (u "docs") then
    flat_map (fun line => [Paragraph line Normal; Spacer 1 12])
      (filter nonblank (Str.split 10 (content data)))
  else if Str.eqb (type data) (u "agenda") then
    match agenda_table (content data) with
    | Ok table => [table]
    | Raise _ => [Paragraph (content data) Normal]
    end
  else if Str.eqb (type data) (u "planilhas") then
    match planilhas_body (content data) [] with
    | Ok blocks => blocks
    | Raise _ => [Paragraph (content data) Normal]
    end
  else [].

(** The story the handler means to hand to [doc.build]. *)
Definition planned_story (L : Libraries) (data : PDFContentModel)
  : list flowable :=
  title_blocks (title data) ++ planned_blocks L data.

(** A row of the agenda: four cells, the last one of the two labels. *)
Definition labelled_row (row : pyval) : Prop :=
  exists a b c s,
    row = PyList [a; b; c; PyStr s]
    /\ (s = u "Concluído" \/ s = u "Pendente").

(* ================================================================== *)
(** ** Basic facts *)

Lemma eqb_eq (a b : str) : Str.eqb a b = true <-> a = b.
Proof.
  unfold Str.eqb. destruct (list_eq_dec N.eq_dec a b); split; congruence.
Qed.

Lemma eqb_neq (a b : str) : Str.eqb a b = false <-> a <> b.
Proof.
  unfold Str.eqb. destruct (list_eq_dec N.eq_dec a b); split; congruence.
Qed.

Lemma bind_Ok {A B} (m : result A) (k : A -> result B) (b : B) :
  bind m k = Ok b -> exists a, m = Ok a /\ k a = Ok b.
Proof. destruct m as [a|e]; simpl; [eauto | discriminate]. Qed.

Lemma try_except_Ok {A} (body handler : result A) (a : A) :
  try_except body handler = Ok a ->
  body = Ok a \/ (exists e, body = Raise e) /\ handler = Ok a.
Proof. destruct body as [x|e]; simpl; [auto | eauto]. Qed.

Section Facts.

Context {L : Libraries}.

Lemma Paragraph_new_Ok text st p :
  Paragraph_new text st = Ok p ->
  p = Paragraph text st /\ Paragraph_accepts text = true.
Proof.
  unfold Paragraph_new. destruct (Paragraph_accepts text); [|discriminate].
  intros [= <-]. auto.
Qed.

Lemma Table_new_grid data w :
  is_grid data w = true -> Table_new data w = Ok (Table data w []).
Proof. unfold Table_new. now intros ->. Qed.

(** The docs loop appends, for every line that is not blank, a paragraph
    of the line and a spacer. *)
Lemma docs_loop_Ok lines : forall story story',
  docs_loop lines story = Ok story' ->
  story' = story ++ flat_map (fun l => [Paragraph l Normal; Spacer 1 12])
                             (filter nonblank lines).
Proof.
  induction lines as [|line rest IH]; simpl; intros story story' H.
  - injection H as <-. now rewrite app_nil_r.
  - unfold nonblank at 1. destruct (Str.truthy (Str.strip line)).
    + apply bind_Ok in H. destruct H as (p & Hp & H).
      apply Paragraph_new_Ok in Hp. destruct Hp as [-> _].
      apply IH in H. rewrite H. simpl. now rewrite <- !app_assoc.
    + now apply IH.
Qed.

Lemma docs_loop_returns lines : forall story,
  (forall l, In l lines -> Paragraph_accepts l = true) ->
  exists story', docs_loop lines story = Ok story'.
Proof.
  induction lines as [|line rest IH]; simpl; intros story H.
  - eauto.
  - destruct (Str.truthy (Str.strip line)).
    + unfold Paragraph_new. rewrite (H line) by auto. simpl.
      apply IH. auto.
    + apply IH. auto.
Qed.

(** What a returned response says about the run that produced it. *)
Lemma generate_pdf_inv data resp :
  generate_pdf L data = Ok resp ->
  exists story,
    content_blocks data (title_blocks (title data)) = Ok story
    /\ resp = response story (title data)
    /\ Paragraph_accepts (title data) = true
    /\ build_accepts story = true
    /\ header_accepts (u "attachment; filename=" ++ filename (title data))
       = true.
Proof.
  unfold generate_pdf. intros H.
  apply bind_Ok in H. destruct H as (p & Hp & H).
  apply Paragraph_new_Ok in Hp. destruct Hp as [-> Ht].
  apply bind_Ok in H. destruct H as (story & Hs & H).
  exists story. split; [exact Hs|].
  apply bind_Ok in H. destruct H as ([] & Hb & H).
  unfold build in Hb. destruct (build_accepts story) eqn:Eb; [|discriminate].
  unfold StreamingResponse in H. cbn [forallb snd] in H.
  destruct (header_accepts _) eqn:Eh; [|discriminate].
  cbn [andb] in H. injection H as <-. auto.
Qed.

(** The handler returns as soon as the libraries take what it hands
    them. *)
Lemma generate_pdf_returns data story :
  content_blocks data (title_blocks (title data)) = Ok story ->
  Paragraph_accepts (title data) = true ->
  build_accepts story = true ->
  header_accepts (u "attachment; filename=" ++ filename (title data)) = true ->
  generate_pdf L data = Ok (response story (title data)).
Proof.
  intros Hs Ht Hb Hh. unfold generate_pdf, Paragraph_new. rewrite Ht.
  cbn [bind app].
  change [Paragraph (title data) title_style; Spacer 1 12]
    with (title_blocks (title data)).
  rewrite Hs. cbn [bind]. unfold build. rewrite Hb. cbn [bind].
  unfold StreamingResponse. cbn [forallb snd]. rewrite Hh. reflexivity.
Qed.

(** The content of an unrecognised type: nothing. *)
Lemma content_blocks_other data story :
  type data <> u "docs" -> type data <> u "agenda" ->
  type data <> u "planilhas" ->
  content_blocks data story = Ok story.
Proof.
  intros H1 H2 H3. unfold content_blocks.
  apply eqb_neq in H1, H2, H3. now rewrite H1, H2, H3.
Qed.

End Facts.

(* ================================================================== *)
(** ** The decoder never runs out of fuel *)

Lemma skip_ws_length s : List.length (Json.skip_ws s) <= List.length s.
Proof.
  induction s as [|c s IH]; simpl; [lia|].
  destruct (Json.is_ws c); simpl; lia.
Qed.

Lemma starts_with_length c s r :
  Json.starts_with c s = Some r -> List.length s = S (List.length r).
Proof.
  destruct s as [|c' s]; simpl; [discriminate|].
  destruct (c' =? c)%N; [|discriminate]. now intros [= ->].
Qed.

Lemma strip_prefix_length p : forall s r,
  Json.strip_prefix p s = Some r ->
  List.length s = List.length p + List.length r.
Proof.
  induction p as [|a p IH]; intros s r; simpl.
  - now intros [= ->].
  - destruct s as [|b s]; [discriminate|].
    destruct (a =? b)%N; [|discriminate].
    intros H. apply IH in H. simpl. lia.
Qed.

Lemma span_digits_length s : forall ds r,
  Json.span_digits s = (ds, r) ->
  List.length s = List.length ds + List.length r.
Proof.
  induction s as [|c s IH]; intros ds r; simpl.
  - now intros [= <- <-].
  - destruct (Json.is_digit c).
    + destruct (Json.span_digits s) as [ds' r'] eqn:E.
      intros [= <- <-]. specialize (IH _ _ eq_refl). simpl. lia.
    + now intros [= <- <-].
Qed.

Lemma int_part_shorter s ds r :
  Json.int_part s = Some (ds, r) -> List.length r < List.length s.
Proof.
  unfold Json.int_part.
  destruct (Json.starts_with 48 s) as [r0|] eqn:E0.
  - intros [= <- <-]. apply starts_with_length in E0. lia.
  - destruct (Json.span_digits s) as [[|d ds'] r'] eqn:E; [discriminate|].
    intros [= <- <-]. apply span_digits_length in E. simpl in E. lia.
Qed.

Lemma frac_part_length s f r :
  Json.frac_part s = (f, r) -> List.length r <= List.length s.
Proof.
  unfold Json.frac_part.
  destruct (Json.starts_with 46 s) as [r0|] eqn:E0.
  - destruct (Json.span_digits r0) as [[|d ds'] r'] eqn:E.
    + intros [= <- <-]. lia.
    + intros [= <- <-]. apply starts_with_length in E0.
      apply span_digits_length in E. lia.
  - intros [= <- <-]. lia.
Qed.

Lemma exp_part_length s x r :
  Json.exp_part s = (x, r) -> List.length r <= List.length s.
Proof.
  unfold Json.exp_part. destruct s as [|e s']; [intros [= <- <-]; lia|].
  destruct ((e =? 101)%N || (e =? 69)%N); [|intros [= <- <-]; lia].
  destruct (Json.starts_with 45 s') as [t|] eqn:Em;
    [|destruct (Json.starts_with 43 s') as [t|] eqn:Ep].
  all: match goal with
       | |- context [Json.span_digits ?t] =>
         destruct (Json.span_digits t) as [[|d ds] r'] eqn:E
       end.
  all: intros [= <- <-]; try lia.
  all: apply span_digits_length in E;
       try apply starts_with_length in Em;
       try apply starts_with_length in Ep; simpl in *; lia.
Qed.

Lemma match_number_shorter s v r :
  Json.match_number s = Some (v, r) -> List.length r < List.length s.
Proof.
  unfold Json.match_number.
  destruct (Json.starts_with 45 s) as [s1|] eqn:Es;
    [apply starts_with_length in Es|].
  all: match goal with
       | |- context [Json.int_part ?t] =>
         destruct (Json.int_part t) as [[ids r1]|] eqn:Ei; [|discriminate]
       end.
  all: apply int_part_shorter in Ei.
  all: destruct (Json.frac_part r1) as [f r2] eqn:Ef;
       apply frac_part_length in Ef.
  all: destruct (Json.exp_part r2) as [x r3] eqn:Ex;
       apply exp_part_length in Ex.
  all: destruct f, x; intros [= <- <-]; lia.
Qed.

Lemma scan_atom_scans s : scans (List.length s) (Json.scan_atom s).
Proof.
  unfold Json.scan_atom.
  repeat match goal with
         | |- context [Json.strip_prefix ?p s] =>
           let E := fresh "E" in
           destruct (Json.strip_prefix p s) eqn:E;
           [apply strip_prefix_length in E;
            let n := eval vm_compute in (List.length p) in
            change (List.length p) with n in E;
            simpl; lia|]
         | |- context [Json.match_number s] =>
           let E := fresh "E" in
           destruct (Json.match_number s) as [[v r]|] eqn:E;
           [apply match_number_shorter in E; simpl; lia|]
         end.
  exact eq_refl.
Qed.

Lemma scans_map {A B} (n m : nat) (x : result (A * str)) (f : A -> B) :
  scans n x -> n <= m ->
  scans m (bind x (fun p => match p with (a, r) => Ok (f a, r) end)).
Proof.
  destruct x as [[a r]|e]; simpl; [lia | auto].
Qed.

Lemma scanstring_scans_upto n : forall s,
  List.length s <= n -> scans (List.length s) (Json.scanstring s).
Proof.
  induction n as [|n IH]; intros s Hn.
  - destruct s; [exact eq_refl | simpl in Hn; lia].
  - destruct s as [|c rest]; [exact eq_refl|].
    cbn [Json.scanstring]. simpl in Hn.
    destruct (c =? 34)%N; [simpl; lia|].
    destruct (c =? 92)%N.
    2:{ destruct (c <? 32)%N; [exact eq_refl|].
        eapply scans_map; [apply IH; lia | simpl; lia]. }
    destruct rest as [|esc rest1]; [exact eq_refl|]. simpl in Hn.
    destruct (esc =? 117)%N.
    2:{ destruct (Json.backslash esc); [|exact eq_refl].
        eapply scans_map; [apply IH; lia | simpl; lia]. }
    destruct rest1 as [|a [|b [|c' [|d rest2]]]]; try exact eq_refl.
    simpl in Hn.
    destruct (Json.hex4 a b c' d) as [uni|]; [|exact eq_refl].
    assert (Hrest2 : forall g : str -> str,
               scans (List.length (c :: esc :: a :: b :: c' :: d :: rest2))
                 (bind (Json.scanstring rest2)
                    (fun p => match p with (cs, r) => Ok (g cs, r) end))).
    { intros g. eapply scans_map; [apply IH; lia | simpl; lia]. }
    destruct rest2 as [|bs [|lu [|a2 [|b2 [|c2 [|d2 rest3]]]]]];
      try apply (Hrest2 (cons uni)).
    destruct (if ((bs =? 92) && (lu =? 117))%N && Json.is_high_surrogate uni
              then Json.hex4 a2 b2 c2 d2 else None) as [uni2|];
      [|apply (Hrest2 (cons uni))].
    destruct (Json.is_low_surrogate uni2); [|apply (Hrest2 (cons uni))].
    eapply scans_map; [apply IH; simpl in Hn; lia | simpl; lia].
Qed.

Lemma scanstring_scans s : scans (List.length s) (Json.scanstring s).
Proof. exact (@scanstring_scans_upto (List.length s) s (le_n _)). Qed.

(** With fuel above twice the length of the text the three scanners stop
    on a shorter rest or refuse the text; none gives up. *)
Lemma scanners_scan fuel :
  (forall s, 2 * List.length s + 1 <= fuel ->
             scans (List.length s) (Json.scan_once fuel s))
  /\ (forall s, 2 * List.length s + 2 <= fuel ->
                scans (S (List.length s)) (Json.array_members fuel s))
  /\ (forall s, 2 * List.length s + 2 <= fuel ->
                scans (List.length s) (Json.object_members fuel s)).
Proof.
  induction fuel as [|fuel (IHs & IHa & IHo)].
  { repeat split; intros s H; lia. }
  split; [|split]; intros s Hf.
  - cbn [Json.scan_once].
    destruct (Json.starts_with 34 s) as [r|] eqn:E1.
    { apply starts_with_length in E1.
      eapply scans_map; [apply scanstring_scans | lia]. }
    destruct (Json.starts_with 123 s) as [r|] eqn:E2.
    { apply starts_with_length in E2. pose proof (skip_ws_length r) as Hw.
      destruct (Json.starts_with 125 (Json.skip_ws r)) as [r'|] eqn:E3.
      { apply starts_with_length in E3. simpl. lia. }
      destruct (Json.starts_with 34 (Json.skip_ws r)) as [r'|] eqn:E4;
        [|exact eq_refl].
      apply starts_with_length in E4.
      eapply scans_map; [apply IHo; lia | lia]. }
    destruct (Json.starts_with 91 s) as [r|] eqn:E5;
      [|apply scan_atom_scans].
    apply starts_with_length in E5. pose proof (skip_ws_length r) as Hw.
    destruct (Json.starts_with 93 (Json.skip_ws r)) as [r'|] eqn:E6.
    { apply starts_with_length in E6. simpl. lia. }
    eapply scans_map; [apply IHa; lia | lia].
  - cbn [Json.array_members].
    specialize (IHs s ltac:(lia)).
    destruct (Json.scan_once fuel s) as [[v r]|e]; [|exact IHs].
    simpl in IHs. cbn [bind]. pose proof (skip_ws_length r) as Hw.
    destruct (Json.starts_with 93 (Json.skip_ws r)) as [r'|] eqn:E1.
    { apply starts_with_length in E1. simpl. lia. }
    destruct (Json.starts_with 44 (Json.skip_ws r)) as [r'|] eqn:E2;
      [|exact eq_refl].
    apply starts_with_length in E2. pose proof (skip_ws_length r') as Hw'.
    eapply scans_map; [apply IHa; lia | lia].
  - cbn [Json.object_members].
    pose proof (scanstring_scans s) as Hk.
    destruct (Json.scanstring s) as [[key r]|e]; [|exact Hk].
    simpl in Hk. cbn [bind]. pose proof (skip_ws_length r) as Hw.
    destruct (Json.starts_with 58 (Json.skip_ws r)) as [r1|] eqn:E1;
      [|exact eq_refl].
    apply starts_with_length in E1. pose proof (skip_ws_length r1) as Hw1.
    specialize (IHs (Json.skip_ws r1) ltac:(lia)).
    destruct (Json.scan_once fuel (Json.skip_ws r1)) as [[v r2]|e];
      [|exact IHs].
    simpl in IHs. cbn [bind]. pose proof (skip_ws_length r2) as Hw2.
    destruct (Json.starts_with 125 (Json.skip_ws r2)) as [r3|] eqn:E2.
    { apply starts_with_length in E2. simpl. lia. }
    destruct (Json.starts_with 44 (Json.skip_ws r2)) as [r3|] eqn:E3;
      [|exact eq_refl].
    apply starts_with_length in E3. pose proof (skip_ws_length r3) as Hw3.
    destruct (Json.starts_with 34 (Json.skip_ws r3)) as [r4|] eqn:E4;
      [|exact eq_refl].
    apply starts_with_length in E4.
    eapply scans_map; [apply IHo; lia | lia].
Qed.

(** [json.loads] returns a value or raises JSONDecodeError: the fuel it
    gives the scanner is always enough. *)
Lemma loads_raises_only_JSONDecodeError s e :
  Json.loads s = Raise e -> e = JSONDecodeError.
Proof.
  unfold Json.loads.
  destruct (Json.starts_with 65279 s); [now intros [= <-]|].
  pose proof (skip_ws_length s) as Hw.
  destruct (scanners_scan (2 * List.length s + 2)) as (Hs & _ & _).
  specialize (Hs (Json.skip_ws s) ltac:(lia)).
  destruct (Json.scan_once _ (Json.skip_ws s)) as [[v r]|e'].
  - cbn [bind]. destruct (Json.skip_ws r); [discriminate|now intros [= <-]].
  - cbn [bind]. simpl in Hs. intros [= <-]. exact Hs.
Qed.

(* ================================================================== *)
(** ** The filename *)

(** C3: for every title, type and content, the Content-Disposition header
    of the response names the file: the title with every space replaced by
    an underscore, followed by [.pdf].  Type and content have no part in
    it. *)
Theorem filename_from_title (L : Libraries) (t c ty : str) (resp : Response) :
  generate_pdf L {| title := t; content := c; type := ty |} = Ok resp ->
  headers resp =
    [(u "Content-Disposition",
      u "attachment; filename="
        ++ map (fun ch => if (ch =? 32)%N then 95%N else ch) t ++ u ".pdf")].
Proof.
  intros H. apply generate_pdf_inv in H.
  destruct H as (story & _ & -> & _). reflexivity.
Qed.

Lemma filename_from_title_witness :
  generate_pdf lenient
    {| title := u "Ata de reunião"; content := u "x"; type := u "docs" |}
  = Ok (response (title_blocks (u "Ata de reunião")
                  ++ [Paragraph (u "x") Normal; Spacer 1 12])
                 (u "Ata de reunião"))
  /\ headers (response (title_blocks (u "Ata de reunião")
                        ++ [Paragraph (u "x") Normal; Spacer 1 12])
                       (u "Ata de reunião"))
     = [(u "Content-Disposition",
         u "attachment; filename=Ata_de_reunião.pdf")].
Proof.
  split.
  - vm_compute. reflexivity.
  - apply (@filename_from_title lenient (u "Ata de reunião") (u "x")
             (u "docs")).
    vm_compute. reflexivity.
Defined.

(* ================================================================== *)
(** ** The title blocks *)

Lemma content_blocks_extends (L : Libraries) data story story' :
  content_blocks data story = Ok story' -> exists rest, story' = story ++ rest.
Proof.
  unfold content_blocks.
  destruct (Str.eqb (type data) (u "docs")).
  { intros H. apply docs_loop_Ok in H. eauto. }
  destruct (Str.eqb (type data) (u "agenda")).
  { intros H. apply try_except_Ok in H. destruct H as [H | [_ H]];
      apply bind_Ok in H; destruct H as (x & _ & [= <-]); eauto. }
  destruct (Str.eqb (type data) (u "planilhas")).
  { intros H. apply try_except_Ok in H. destruct H as [H | [_ H]].
    - unfold planilhas_body in H. apply bind_Ok in H.
      destruct H as (rows & _ & H). destruct (truthy rows).
      + apply bind_Ok in H. destruct H as (x & _ & [= <-]). eauto.
      + injection H as <-. exists []. now rewrite app_nil_r.
    - apply bind_Ok in H. destruct H as (x & _ & [= <-]). eauto. }
  intros [= <-]. exists []. now rewrite app_nil_r.
Qed.

(** C10: whatever the type, the story of a response begins with the title
    paragraph followed by one spacer, before any content. *)
Theorem story_begins_with_title (L : Libraries) (data : PDFContentModel)
    (resp : Response) :
  generate_pdf L data = Ok resp ->
  exists rest,
    body resp = Paragraph (title data) title_style :: Spacer 1 12 :: rest.
Proof.
  intros H. apply generate_pdf_inv in H.
  destruct H as (story & Hs & -> & _).
  apply content_blocks_extends in Hs. destruct Hs as [rest ->].
  exists rest. reflexivity.
Qed.

Lemma story_begins_with_title_witness :
  exists rest,
    body (response (title_blocks (u "Notas")) (u "Notas"))
    = Paragraph (u "Notas") title_style :: Spacer 1 12 :: rest.
Proof.
  apply (@story_begins_with_title lenient
           {| title := u "Notas"; content := u "x"; type := u "memo" |}).
  vm_compute. reflexivity.
Defined.

(* ================================================================== *)
(** ** Unrecognised types *)

(** C4: for a type other than docs, agenda and planilhas the dispatch
    appends nothing and raises nothing: it is the default case, and the
    story of the response is the title paragraph with its spacer, without
    any content block. *)
Theorem unknown_type_title_only (L : Libraries) (data : PDFContentModel)
    (resp : Response) :
  type data <> u "docs" ->
  type data <> u "agenda" ->
  type data <> u "planilhas" ->
  generate_pdf L data = Ok resp ->
  body resp = [Paragraph (title data) title_style; Spacer 1 12].
Proof.
  intros H1 H2 H3 H. apply generate_pdf_inv in H.
  destruct H as (story & Hs & -> & _).
  rewrite content_blocks_other in Hs by assumption.
  injection Hs as <-. reflexivity.
Qed.

Lemma unknown_type_title_only_witness :
  body (response (title_blocks (u "Notas")) (u "Notas"))
  = [Paragraph (u "Notas") title_style; Spacer 1 12].
Proof.
  apply (@unknown_type_title_only lenient
           {| title := u "Notas"; content := u "[1, 2]"; type := u "slides" |}).
  - vm_compute. discriminate.
  - vm_compute. discriminate.
  - vm_compute. discriminate.
  - vm_compute. reflexivity.
Defined.

(* ================================================================== *)
(** ** Spreadsheets *)

(** C5: for type planilhas, when the content parses to an empty list of
    rows (or to any other value that is false), the story is the title
    paragraph with its spacer: no table and no fallback paragraph. *)
Theorem planilhas_empty_rows (L : Libraries) (data : PDFContentModel)
    (rows : pyval) (resp : Response) :
  type data = u "planilhas" ->
  Json.loads (content data) = Ok rows ->
  truthy rows = false ->
  generate_pdf L data = Ok resp ->
  body resp = [Paragraph (title data) title_style; Spacer 1 12]
  /\ filter is_table (body resp) = []
  /\ ~ In (Paragraph (content data) Normal) (body resp).
Proof.
  intros Hty Hrows Hf H. apply generate_pdf_inv in H.
  destruct H as (story & Hs & -> & _).
  unfold content_blocks, planilhas_body in Hs.
  rewrite Hty, Hrows in Hs. cbn [bind] in Hs. rewrite Hf in Hs.
  change (Str.eqb (u "planilhas") (u "docs")) with false in Hs.
  change (Str.eqb (u "planilhas") (u "agenda")) with false in Hs.
  change (Str.eqb (u "planilhas") (u "planilhas")) with true in Hs.
  cbn [try_except] in Hs. injection Hs as <-.
  cbn [body response title_blocks]. repeat split.
  intros [H | [H | []]]; discriminate H.
Qed.

Lemma planilhas_empty_rows_witness :
  body (response (title_blocks (u "Contas")) (u "Contas"))
  = [Paragraph (u "Contas") title_style; Spacer 1 12]
  /\ filter is_table (body (response (title_blocks (u "Contas")) (u "Contas")))
     = []
  /\ ~ In (Paragraph (u " [ ] ") Normal)
          (body (response (title_blocks (u "Contas")) (u "Contas"))).
Proof.
  apply (@planilhas_empty_rows lenient
           {| title := u "Contas"; content := u " [ ] ";
              type := u "planilhas" |} (PyList [])).
  - reflexivity.
  - vm_compute. reflexivity.
  - reflexivity.
  - vm_compute. reflexivity.
Defined.

(* ================================================================== *)
(** ** Text documents *)

Lemma docs_paragraph_count (lines : list str) :
  List.length
    (filter is_paragraph
       (flat_map (fun l => [Paragraph l Normal; Spacer 1 12]) lines))
  = List.length lines.
Proof.
  induction lines as [|l ls IH]; simpl; [reflexivity | now rewrite IH].
Qed.

(** C2: for type docs the content blocks are, for each line of the content
    that is not blank once stripped and in order, a paragraph of that line
    followed by a spacer of fixed size; so there are as many content
    paragraphs as such lines, and a blank line gives no block. *)
Theorem docs_paragraph_per_line (L : Libraries) (data : PDFContentModel)
    (resp : Response) :
  type data = u "docs" ->
  generate_pdf L data = Ok resp ->
  body resp =
    [Paragraph (title data) title_style; Spacer 1 12]
    ++ flat_map (fun line => [Paragraph line Normal; Spacer 1 12])
         (filter (fun line => Str.truthy (Str.strip line))
            (Str.split 10 (content data)))
  /\ List.length (filter is_paragraph (skipn 2 (body resp)))
     = List.length (filter (fun line => Str.truthy (Str.strip line))
                      (Str.split 10 (content data))).
Proof.
  intros Hty H. apply generate_pdf_inv in H.
  destruct H as (story & Hs & -> & _).
  unfold content_blocks in Hs. rewrite Hty in Hs.
  change (Str.eqb (u "docs") (u "docs")) with true in Hs. cbv iota in Hs.
  apply docs_loop_Ok in Hs. subst story.
  cbn [body response title_blocks app skipn]. split; [reflexivity|].
  apply docs_paragraph_count.
Qed.

Lemma docs_paragraph_per_line_witness :
  body (response
          (title_blocks (u "Notas")
           ++ [Paragraph (u "um") Normal; Spacer 1 12;
               Paragraph (u " dois ") Normal; Spacer 1 12])
          (u "Notas"))
  = [Paragraph (u "Notas") title_style; Spacer 1 12]
    ++ flat_map (fun line => [Paragraph line Normal; Spacer 1 12])
         (filter (fun line => Str.truthy (Str.strip line))
            (Str.split 10 five_lines))
  /\ 2 = List.length (filter (fun line => Str.truthy (Str.strip line))
                        (Str.split 10 five_lines)).
Proof.
  apply (@docs_paragraph_per_line lenient
           {| title := u "Notas"; content := five_lines;
              type := u "docs" |}).
  - reflexivity.
  - vm_compute. reflexivity.
Defined.

(* ================================================================== *)
(** ** Agendas *)

Lemma agenda_row_record d : agenda_row (PyDict d) = Ok (record_row d).
Proof. reflexivity. Qed.

Lemma agenda_row_not_record item :
  is_dict item = false -> agenda_row item = Raise AttributeError.
Proof. destruct item; simpl; intros H; try reflexivity; discriminate H. Qed.

Lemma mapM_agenda_row_records items :
  forallb is_dict items = true ->
  exists rows,
    mapM agenda_row items = Ok rows /\ Forall2 row_of_record items rows.
Proof.
  induction items as [|item items IH]; intros H.
  - exists []. split; [reflexivity | constructor].
  - cbn [forallb] in H. apply andb_true_iff in H. destruct H as [Hd Hr].
    destruct (IH Hr) as (rows & Hm & HF).
    destruct item; try discriminate Hd.
    exists (record_row d :: rows). split.
    + cbn [mapM]. rewrite agenda_row_record, Hm. reflexivity.
    + constructor; [|exact HF]. exists d. auto.
Qed.

Lemma mapM_agenda_row_raises items :
  forallb is_dict items = false ->
  mapM agenda_row items = Raise AttributeError.
Proof.
  induction items as [|item items IH]; intros H; [discriminate H|].
  cbn [forallb] in H. cbn [mapM].
  destruct (is_dict item) eqn:Hd.
  - destruct item; try discriminate Hd. rewrite agenda_row_record.
    cbn [bind]. rewrite IH by exact H. reflexivity.
  - now rewrite agenda_row_not_record.
Qed.

Lemma records_make_grid items rows :
  Forall2 row_of_record items rows ->
  is_grid (PyList (agenda_header :: rows)) (Some agenda_colWidths) = true.
Proof.
  intros HF. unfold is_grid, agenda_header.
  apply andb_true_iff. split; [|reflexivity].
  induction HF as [|item row items rows (d & _ & ->) _ IH];
    [reflexivity | exact IH].
Qed.

Lemma Forall2_nth_row items rows :
  Forall2 row_of_record items rows ->
  forall i d, nth_error items i = Some (PyDict d) ->
              nth_error rows i = Some (record_row d).
Proof.
  induction 1 as [|item row items rows (d' & -> & ->) _ IH]; intros i d Hi.
  - destruct i; discriminate Hi.
  - destruct i as [|i]; cbn [nth_error] in *.
    + injection Hi as <-. reflexivity.
    + now apply IH.
Qed.

Section AgendaFacts.

Context {L : Libraries}.

(** The agenda [try] raises exactly when the decoding, the iteration or
    a field access does: a table of records is always made. *)
Lemma agenda_rows_raises_iff c :
  (exists e, agenda_rows c = Raise e) <->
  match Json.loads c with
  | Raise _ => True
  | Ok v =>
    match py_iter v with
    | Raise _ => True
    | Ok its => forallb is_dict its = false
    end
  end.
Proof.
  unfold agenda_rows. destruct (Json.loads c) as [v|e]; cbn [bind].
  2:{ split; eauto. }
  destruct (py_iter v) as [its|e]; cbn [bind].
  2:{ split; eauto. }
  destruct (forallb is_dict its) eqn:Hd.
  - destruct (mapM_agenda_row_records its Hd) as (rows & -> & _).
    split; [intros [e He]; discriminate He | discriminate].
  - rewrite mapM_agenda_row_raises by exact Hd. split; eauto.
Qed.

Lemma agenda_table_of_rows c items :
  Json.loads c = Ok (PyList items) ->
  forallb is_dict items = true ->
  exists rows,
    Forall2 row_of_record items rows
    /\ agenda_table c
       = Ok (Table (PyList (agenda_header :: rows)) (Some agenda_colWidths)
                   agenda_style).
Proof.
  intros Hl Hd. destruct (mapM_agenda_row_records items Hd) as (rows & Hm & HF).
  exists rows. split; [exact HF|].
  unfold agenda_table, agenda_rows. rewrite Hl. cbn [bind py_iter].
  rewrite Hm. cbn [bind].
  rewrite Table_new_grid by (eapply records_make_grid; exact HF).
  reflexivity.
Qed.

Lemma agenda_table_raises c e :
  agenda_rows c = Raise e -> agenda_table c = Raise e.
Proof. unfold agenda_table. now intros ->. Qed.

End AgendaFacts.

(** C1: for type agenda and a content that parses as a list of N records,
    the story is the title blocks and one table; the table has N+1 rows,
    the header Título, Data, Hora, Status and then one row per record in
    order; the row of a record shows its title, date and time, each the
    empty string when the record lacks it, and in column 4 Concluído when
    its completed field is true, Pendente otherwise. *)
Theorem agenda_table_of_records (L : Libraries) (data : PDFContentModel)
    (items : list pyval) (resp : Response) :
  type data = u "agenda" ->
  Json.loads (content data) = Ok (PyList items) ->
  forallb is_dict items = true ->
  generate_pdf L data = Ok resp ->
  exists rows,
    body resp =
      [Paragraph (title data) title_style; Spacer 1 12;
       Table (PyList (PyList [PyStr (u "Título"); PyStr (u "Data");
                              PyStr (u "Hora"); PyStr (u "Status")] :: rows))
             (Some agenda_colWidths) agenda_style]
    /\ List.length rows = List.length items
    /\ forall i d,
         nth_error items i = Some (PyDict d) ->
         nth_error rows i =
           Some (PyList
                   [dict_get d (u "title") (PyStr []);
                    dict_get d (u "date") (PyStr []);
                    dict_get d (u "time") (PyStr []);
                    PyStr (if truthy (dict_get d (u "completed") PyNone)
                           then u "Concluído" else u "Pendente")]).
Proof.
  intros Hty Hl Hd H. apply generate_pdf_inv in H.
  destruct H as (story & Hs & -> & _).
  destruct (agenda_table_of_rows (content data) Hl Hd) as (rows & HF & Ht).
  exists rows. unfold content_blocks in Hs. rewrite Hty, Ht in Hs.
  change (Str.eqb (u "agenda") (u "docs")) with false in Hs.
  change (Str.eqb (u "agenda") (u "agenda")) with true in Hs.
  cbn [bind try_except] in Hs. injection Hs as <-.
  split; [reflexivity|]. split.
  - symmetry. eapply Forall2_length. exact HF.
  - intros i d Hi. exact (Forall2_nth_row HF i Hi).
Qed.

Lemma agenda_table_of_records_witness :
  exists resp,
    generate_pdf lenient two_records_request = Ok resp
    /\ exists rows,
         body resp =
           [Paragraph (u "Semana 9") title_style; Spacer 1 12;
            Table (PyList (PyList [PyStr (u "Título"); PyStr (u "Data");
                                   PyStr (u "Hora"); PyStr (u "Status")]
                           :: rows))
                  (Some agenda_colWidths) agenda_style]
         /\ List.length rows = List.length two_records
         /\ forall i d,
              nth_error two_records i = Some (PyDict d) ->
              nth_error rows i =
                Some (PyList
                        [dict_get d (u "title") (PyStr []);
                         dict_get d (u "date") (PyStr []);
                         dict_get d (u "time") (PyStr []);
                         PyStr (if truthy (dict_get d (u "completed") PyNone)
                                then u "Concluído" else u "Pendente")]).
Proof.
  eexists. split.
  - vm_compute. reflexivity.
  - apply (@agenda_table_of_records lenient two_records_request two_records).
    + reflexivity.
    + vm_compute. reflexivity.
    + reflexivity.
    + vm_compute. reflexivity.
Defined.

(** The rows of the two records, spelled out. *)
Example two_records_rows :
  agenda_rows (content two_records_request)
  = Ok [PyList [PyStr (u "Aula"); PyStr (u "2024-03-01"); PyStr (u "08:30");
                PyStr (u "Concluído")];
        PyList [PyStr []; PyStr (u "2024-03-02"); PyStr [];
                PyStr (u "Pendente")]].
Proof. vm_compute. reflexivity. Qed.

(** C8: the end-to-end example.  The title is Relatório, the type agenda
    and the content one record; the table has the header row Título,
    Data, Hora, Status and exactly one body row, Reunião, 2024-01-10,
    10:00, Concluído, and the file is named Relatório.pdf. *)
Theorem example_agenda_document (L : Libraries) (resp : Response) :
  generate_pdf L example_request = Ok resp ->
  body resp =
    [Paragraph (u "Relatório") title_style; Spacer 1 12;
     Table (PyList
              [PyList [PyStr (u "Título"); PyStr (u "Data");
                       PyStr (u "Hora"); PyStr (u "Status")];
               PyList [PyStr (u "Reunião"); PyStr (u "2024-01-10");
                       PyStr (u "10:00"); PyStr (u "Concluído")]])
           (Some agenda_colWidths) agenda_style]
  /\ headers resp =
       [(u "Content-Disposition", u "attachment; filename=Relatório.pdf")].
Proof.
  intros H. apply generate_pdf_inv in H.
  destruct H as (story & Hs & -> & _).
  vm_compute in Hs. injection Hs as <-.
  split; vm_compute; reflexivity.
Qed.

Lemma example_agenda_document_witness :
  exists resp,
    generate_pdf lenient example_request = Ok resp
    /\ body resp =
         [Paragraph (u "Relatório") title_style; Spacer 1 12;
          Table (PyList
                   [PyList [PyStr (u "Título"); PyStr (u "Data");
                            PyStr (u "Hora"); PyStr (u "Status")];
                    PyList [PyStr (u "Reunião"); PyStr (u "2024-01-10");
                            PyStr (u "10:00"); PyStr (u "Concluído")]])
                (Some agenda_colWidths) agenda_style]
    /\ headers resp =
         [(u "Content-Disposition", u "attachment; filename=Relatório.pdf")].
Proof.
  eexists. split.
  - vm_compute. reflexivity.
  - apply (@example_agenda_document lenient). vm_compute. reflexivity.
Defined.

(* ================================================================== *)
(** ** The type tag is compared exactly *)

(** C9: the type is compared with [==]: a type that becomes docs, agenda
    or planilhas only once its case is folded or the white space around
    it is removed (Docs, AGENDA, docs followed by a space) is not
    recognised, and the story is the title blocks alone. *)
Theorem type_tag_is_exact (L : Libraries) (data : PDFContentModel)
    (tag : str) (resp : Response) :
  In tag [u "docs"; u "agenda"; u "planilhas"] ->
  type data <> tag ->
  Str.lower (Str.strip (type data)) = tag ->
  generate_pdf L data = Ok resp ->
  body resp = [Paragraph (title data) title_style; Spacer 1 12].
Proof.
  intros Hin Hne Hlow H.
  assert (Hother : forall t, In t [u "docs"; u "agenda"; u "planilhas"] ->
                             type data <> t).
  { intros t Ht Heq. rewrite Heq in Hlow, Hne.
    assert (Hfix : Str.lower (Str.strip t) = t)
      by (destruct Ht as [<- | [<- | [<- | []]]]; reflexivity).
    congruence. }
  apply generate_pdf_inv in H. destruct H as (story & Hs & -> & _).
  rewrite content_blocks_other in Hs
    by (apply Hother; cbn [In]; auto).
  injection Hs as <-. reflexivity.
Qed.

Lemma type_tag_is_exact_witness :
  body (response (title_blocks (u "Notas")) (u "Notas"))
  = [Paragraph (u "Notas") title_style; Spacer 1 12].
Proof.
  apply (@type_tag_is_exact lenient
           {| title := u "Notas"; content := u "uma linha";
              type := u " Docs " |}
           (u "docs")).
  - cbn [In]. auto.
  - vm_compute. discriminate.
  - vm_compute. reflexivity.
  - vm_compute. reflexivity.
Defined.

(** The three spellings the property names: no paragraph of the content,
    no table. *)
Example spellings_not_recognised :
  generate_pdf lenient
    {| title := u "T"; content := u "uma linha"; type := u "Docs" |}
  = Ok (response (title_blocks (u "T")) (u "T"))
  /\ generate_pdf lenient
       {| title := u "T"; content := u "[]"; type := u "AGENDA" |}
     = Ok (response (title_blocks (u "T")) (u "T"))
  /\ generate_pdf lenient
       {| title := u "T"; content := u "uma linha"; type := u "docs " |}
     = Ok (response (title_blocks (u "T")) (u "T")).
Proof. repeat split; vm_compute; reflexivity. Qed.

(* ================================================================== *)
(** ** The fallback of the agenda *)

(** C6, as stated, fails: the content [{}] is not a list of records, yet
    nothing raises on it.  The loop over an empty dict has nothing to
    visit, the table is made of the header alone, and the story has that
    table and no paragraph of the raw content. *)
Lemma agenda_empty_object_no_fallback :
  Json.loads (u "{}") = Ok (PyDict [])
  /\ generate_pdf lenient
       {| title := u "Agenda"; content := u "{}"; type := u "agenda" |}
     = Ok (response
             [Paragraph (u "Agenda") title_style; Spacer 1 12;
              Table (PyList [agenda_header]) (Some agenda_colWidths)
                    agenda_style]
             (u "Agenda"))
  /\ ~ In (Paragraph (u "{}") Normal)
          [Paragraph (u "Agenda") title_style; Spacer 1 12;
           Table (PyList [agenda_header]) (Some agenda_colWidths)
                 agenda_style].
Proof.
  split; [vm_compute; reflexivity|].
  split; [vm_compute; reflexivity|].
  intros [H | [H | [H | []]]]; discriminate H.
Qed.

(** C6, amended: for type agenda, whenever the decoding of the content,
    the iteration over the parsed value or a field access raises, the
    exception is caught and the story is the title blocks followed by the
    raw content as one paragraph in the Normal style.  The response is
    returned, with that story, exactly when the libraries take it:
    reportlab the title and the raw content as paragraph texts and the
    story to build, Starlette the value of the Content-Disposition
    header. *)
Theorem agenda_fallback (L : Libraries) (data : PDFContentModel) (e : exn)
    (resp : Response) :
  type data = u "agenda" ->
  agenda_rows (content data) = Raise e ->
  (generate_pdf L data = Ok resp
   <-> Paragraph_accepts (title data) = true
       /\ Paragraph_accepts (content data) = true
       /\ build_accepts [Paragraph (title data) title_style; Spacer 1 12;
                         Paragraph (content data) Normal] = true
       /\ header_accepts
            (u "attachment; filename=" ++ filename (title data)) = true
       /\ resp = response [Paragraph (title data) title_style; Spacer 1 12;
                           Paragraph (content data) Normal] (title data)).
Proof.
  intros Hty Hr.
  assert (Hcb : forall story,
             content_blocks data story
             = bind (Paragraph_new (content data) Normal)
                    (fun p => Ok (story ++ [p]))).
  { intros story. unfold content_blocks. rewrite Hty.
    change (Str.eqb (u "agenda") (u "docs")) with false.
    change (Str.eqb (u "agenda") (u "agenda")) with true. cbv iota.
    rewrite (agenda_table_raises (L := L) _ Hr). reflexivity. }
  split.
  - intros H. apply generate_pdf_inv in H.
    destruct H as (story & Hs & -> & Ht & Hb & Hh).
    rewrite Hcb in Hs. apply bind_Ok in Hs.
    destruct Hs as (p & Hp & [= <-]). apply Paragraph_new_Ok in Hp.
    destruct Hp as [-> Hc]. auto.
  - intros (Ht & Hc & Hb & Hh & ->).
    apply generate_pdf_returns; try assumption.
    rewrite Hcb. unfold Paragraph_new. rewrite Hc. reflexivity.
Qed.

Lemma agenda_fallback_witness :
  generate_pdf no_markup
    {| title := u "Agenda"; content := Json.js "[{'title': 'Aula'}, 7]";
       type := u "agenda" |}
  = Ok (response [Paragraph (u "Agenda") title_style; Spacer 1 12;
                  Paragraph (Json.js "[{'title': 'Aula'}, 7]") Normal]
                 (u "Agenda")).
Proof.
  apply (@agenda_fallback no_markup
           {| title := u "Agenda"; content := Json.js "[{'title': 'Aula'}, 7]";
              type := u "agenda" |} AttributeError).
  - reflexivity.
  - vm_compute. reflexivity.
  - repeat split; reflexivity.
Defined.

(** The paragraph of the fallback is made in the handler of the [try],
    where nothing guards it. *)
Example fallback_paragraph_unguarded :
  generate_pdf no_markup
    {| title := u "Agenda"; content := u "<i>amanhã"; type := u "agenda" |}
  = Raise ValueError.
Proof. vm_compute. reflexivity. Qed.

(** The reasons for which the agenda falls back, each on an example:
    a text that is not JSON, a value that cannot be iterated, an item
    that is not a record. *)
Example agenda_rows_raise :
  agenda_rows (u "reunião às 10h") = Raise JSONDecodeError
  /\ agenda_rows (u "42") = Raise TypeError
  /\ agenda_rows (Json.js "[{'title': 'Aula'}, 7]") = Raise AttributeError
  /\ agenda_rows (Json.js "{'title': 'Aula'}") = Raise AttributeError.
Proof. repeat split; vm_compute; reflexivity. Qed.

(* ================================================================== *)
(** ** When the handler returns *)

Lemma content_blocks_returns (L : Libraries) data story :
  (forall text, In text (content data :: Str.split 10 (content data)) ->
                Paragraph_accepts text = true) ->
  exists story', content_blocks data story = Ok story'.
Proof.
  intros H. unfold content_blocks.
  assert (Hfb : exists story',
             bind (Paragraph_new (content data) Normal)
                  (fun p => Ok (story ++ [p])) = Ok story').
  { unfold Paragraph_new. rewrite (H (content data)) by (left; reflexivity).
    cbn [bind]. eauto. }
  destruct (Str.eqb (type data) (u "docs")).
  { apply docs_loop_returns. intros l Hl. apply H. right. exact Hl. }
  destruct (Str.eqb (type data) (u "agenda")).
  { destruct (agenda_table (content data)) as [t|e]; cbn [bind try_except];
      [eauto | exact Hfb]. }
  destruct (Str.eqb (type data) (u "planilhas")).
  { destruct (planilhas_body (content data) story) as [s|e];
      cbn [try_except]; [eauto | exact Hfb]. }
  eauto.
Qed.

(** C7, as stated, fails: the paragraph of the title is made outside any
    [try], so a title that the paragraph parser refuses makes the handler
    raise. *)
Lemma unclosed_tag_in_title_raises :
  generate_pdf no_markup
    {| title := u "<b>"; content := u "texto"; type := u "docs" |}
  = Raise ValueError.
Proof. vm_compute. reflexivity. Qed.

Lemma docs_loop_planned (L : Libraries) lines : forall story,
  docs_loop lines story
  = if forallb (text_accepted L)
         (flat_map (fun line => [Paragraph line Normal; Spacer 1 12])
                   (filter nonblank lines))
    then Ok (story
             ++ flat_map (fun line => [Paragraph line Normal; Spacer 1 12])
                         (filter nonblank lines))
    else Raise ValueError.
Proof.
  induction lines as [|line rest IH]; intros story; cbn [docs_loop filter].
  - cbn [flat_map forallb]. now rewrite app_nil_r.
  - change (Str.truthy (Str.strip line)) with (nonblank line).
    destruct (nonblank line); [|apply IH].
    cbn [flat_map app forallb text_accepted]. unfold Paragraph_new.
    destruct (Paragraph_accepts line); [|reflexivity].
    cbn [bind andb]. rewrite IH.
    destruct (forallb _ _); [|reflexivity].
    now rewrite <- !app_assoc.
Qed.

Lemma Table_new_is_table (L : Libraries) rows w t st :
  Table_new rows w = Ok t -> text_accepted L (setStyle t st) = true.
Proof.
  unfold Table_new. destruct (is_grid rows w || Table_accepts rows w);
    [|discriminate]. now intros [= <-].
Qed.

(** The dispatch appends the planned blocks, or raises when the text of
    one of their paragraphs is refused. *)
Lemma content_blocks_planned (L : Libraries) data story :
  content_blocks data story
  = if forallb (text_accepted L) (planned_blocks L data)
    then Ok (story ++ planned_blocks L data)
    else Raise ValueError.
Proof.
  unfold content_blocks, planned_blocks.
  assert (Hfb : bind (Paragraph_new (content data) Normal)
                     (fun p => Ok (story ++ [p]))
                = if forallb (text_accepted L) [Paragraph (content data) Normal]
                  then Ok (story ++ [Paragraph (content data) Normal])
                  else Raise ValueError).
  { cbn [forallb text_accepted]. unfold Paragraph_new.
    now destruct (Paragraph_accepts (content data)). }
  destruct (Str.eqb (type data) (u "docs")); [apply docs_loop_planned|].
  destruct (Str.eqb (type data) (u "agenda")).
  { destruct (agenda_table (content data)) as [t|e] eqn:Et;
      cbn [bind try_except]; [|exact Hfb].
    unfold agenda_table in Et. apply bind_Ok in Et.
    destruct Et as (rows & _ & Et). apply bind_Ok in Et.
    destruct Et as (t0 & Ht0 & [= <-]). cbn [forallb].
    now rewrite (Table_new_is_table L _ _ agenda_style Ht0). }
  destruct (Str.eqb (type data) (u "planilhas")).
  { unfold planilhas_body.
    destruct (Json.loads (content data)) as [rows|e];
      cbn [bind try_except]; [|exact Hfb].
    destruct (truthy rows).
    - destruct (Table_new rows None) as [t|e] eqn:Et;
        cbn [bind try_except app]; [|exact Hfb].
      cbn [forallb]. now rewrite (Table_new_is_table L _ _ planilhas_style Et).
    - cbn [try_except forallb]. now rewrite app_nil_r. }
  cbn [forallb]. now rewrite app_nil_r.
Qed.

(** C7, amended: the handler returns a response exactly when the libraries
    take what it hands them: reportlab the text of every paragraph of the
    story it means to build (the title, then the lines of a docs content
    that are not blank, or the raw content of a fallback) and that story
    itself, Starlette the value of the header; the response then carries
    that story.  No exception of the JSON decoding, of the iteration, of a
    field access or of the table constructor reaches the caller: they only
    decide what the story is.  A title that the paragraph parser refuses
    makes the handler raise ValueError. *)
Theorem generate_pdf_returns_when_accepted (L : Libraries)
    (data : PDFContentModel) :
  (forall resp,
      generate_pdf L data = Ok resp
      <-> libraries_accept L (planned_story L data) (title data) = true
          /\ resp = response (planned_story L data) (title data))
  /\ (Paragraph_accepts (title data) = false ->
      generate_pdf L data = Raise ValueError).
Proof.
  split.
  - intros resp. unfold libraries_accept, planned_story.
    change (fun f : flowable =>
              match f with
              | Paragraph text _ => Paragraph_accepts text
              | _ => true
              end) with (text_accepted L).
    rewrite forallb_app. cbn [title_blocks forallb text_accepted].
    rewrite andb_true_r. split.
    + intros H. apply generate_pdf_inv in H.
      destruct H as (story & Hs & -> & Ht & Hb & Hh).
      rewrite content_blocks_planned in Hs.
      destruct (forallb (text_accepted L) (planned_blocks L data)) eqn:Hp;
        [|discriminate].
      injection Hs as <-. cbn [title_blocks app] in Hb |- *.
      rewrite Ht, Hb, Hh. auto.
    + intros [Hacc ->].
      apply andb_true_iff in Hacc. destruct Hacc as [Hacc Hh].
      apply andb_true_iff in Hacc. destruct Hacc as [Hp Hb].
      apply andb_true_iff in Hp. destruct Hp as [Ht Hp].
      apply generate_pdf_returns; try assumption.
      rewrite content_blocks_planned, Hp. reflexivity.
  - intros Ht. unfold generate_pdf, Paragraph_new. now rewrite Ht.
Qed.

Lemma generate_pdf_returns_when_accepted_witness :
  generate_pdf no_markup
    {| title := u "Contas"; content := Json.js "[['a', 'b'], ['c']";
       type := u "planilhas" |}
  = Ok (response [Paragraph (u "Contas") title_style; Spacer 1 12;
                  Paragraph (Json.js "[['a', 'b'], ['c']") Normal]
                 (u "Contas"))
  /\ generate_pdf no_markup
       {| title := u "<b>Contas"; content := Json.js "[['a', 'b'], ['c']";
          type := u "planilhas" |}
     = Raise ValueError.
Proof.
  split.
  - apply (proj1 (@generate_pdf_returns_when_accepted no_markup
                    {| title := u "Contas";
                       content := Json.js "[['a', 'b'], ['c']";
                       type := u "planilhas" |})).
    split; vm_compute; reflexivity.
  - apply (proj2 (@generate_pdf_returns_when_accepted no_markup
                    {| title := u "<b>Contas";
                       content := Json.js "[['a', 'b'], ['c']";
                       type := u "planilhas" |})).
    reflexivity.
Defined.

(* ================================================================== *)
(** ** Splitting and stripping *)

Lemma split_not_nil sep s : Str.split sep s <> [].
Proof.
  destruct s as [|c s]; simpl; [discriminate|].
  destruct (c =? sep)%N; [discriminate|].
  destruct (Str.split sep s); discriminate.
Qed.

Lemma join_cons_char sep c l ls :
  Str.join sep ((c :: l) :: ls) = c :: Str.join sep (l :: ls).
Proof. destruct ls; reflexivity. Qed.

Lemma join_split sep s : Str.join sep (Str.split sep s) = s.
Proof.
  induction s as [|c s IH]; [reflexivity|]. cbn [Str.split].
  destruct (c =? sep)%N eqn:E.
  - apply N.eqb_eq in E. subst c.
    destruct (Str.split sep s) as [|l ls] eqn:Es;
      [now apply split_not_nil in Es|].
    change (Str.join sep ([] :: l :: ls)) with (sep :: Str.join sep (l :: ls)).
    now f_equal.
  - destruct (Str.split sep s) as [|l ls] eqn:Es;
      [now apply split_not_nil in Es|].
    rewrite join_cons_char. now f_equal.
Qed.

Lemma split_pieces sep s : forall piece,
  In piece (Str.split sep s) ->
  ~ In sep piece /\ (forall c, In c piece -> In c s).
Proof.
  induction s as [|c s IH]; intros piece; cbn [Str.split].
  - intros [<- | []]. split; [intros [] | auto].
  - destruct (c =? sep)%N eqn:E.
    + intros [<- | H]; [split; [intros [] | intros ? []]|].
      destruct (IH _ H) as [Hn Hs]. split; [exact Hn|].
      intros x Hx. right. auto.
    + destruct (Str.split sep s) as [|l ls] eqn:Es.
      * intros [<- | []]. apply N.eqb_neq in E. split.
        -- intros [H | []]. congruence.
        -- intros x [<- | []]. now left.
      * intros [<- | H].
        -- destruct (IH l (or_introl eq_refl)) as [Hn Hs].
           apply N.eqb_neq in E. split.
           ++ intros [H | H]; [congruence | auto].
           ++ intros x [<- | Hx]; [now left | right; auto].
        -- destruct (IH piece (or_intror H)) as [Hn Hs].
           split; [exact Hn|]. intros x Hx. right. auto.
Qed.

Lemma split_count sep s :
  List.length (Str.split sep s) = S (count_occ N.eq_dec s sep).
Proof.
  induction s as [|c s IH]; [reflexivity|]. cbn [Str.split count_occ].
  destruct (N.eq_dec c sep) as [->|Hne].
  - rewrite N.eqb_refl. simpl. now rewrite IH.
  - apply N.eqb_neq in Hne. rewrite Hne.
    destruct (Str.split sep s) as [|l ls] eqn:Es;
      [now apply split_not_nil in Es|].
    simpl in *. exact IH.
Qed.

Lemma lstrip_nil_iff s :
  Str.lstrip s = [] <-> forallb Str.isspace s = true.
Proof.
  induction s as [|c s IH]; simpl; [tauto|].
  destruct (Str.isspace c); simpl; [exact IH|].
  split; discriminate.
Qed.

Lemma lstrip_head s c r : Str.lstrip s = c :: r -> Str.isspace c = false.
Proof.
  induction s as [|x s IH]; simpl; [discriminate|].
  destruct (Str.isspace x) eqn:E; [exact IH|].
  now intros [= <- _].
Qed.

Lemma forallb_rev {A} (f : A -> bool) l :
  forallb f (rev l) = forallb f l.
Proof.
  induction l as [|a l IH]; [reflexivity|]. simpl.
  rewrite forallb_app, IH. simpl. rewrite andb_true_r. apply andb_comm.
Qed.

(** X1 (line 86): [line.strip()] is empty, so that the line is skipped,
    exactly when every character of the line is white space; the empty
    line is one of them. *)
Theorem blank_iff_all_whitespace (line : str) :
  Str.truthy (Str.strip line) = false <-> forallb Str.isspace line = true.
Proof.
  unfold Str.strip, Str.rstrip. split.
  - intros H.
    destruct (Str.lstrip line) as [|c r] eqn:E;
      [now apply lstrip_nil_iff|].
    assert (Hn : rev (Str.lstrip (rev (c :: r))) = []).
    { destruct (rev (Str.lstrip (rev (c :: r)))); [reflexivity|discriminate]. }
    apply (f_equal (@rev N)) in Hn. rewrite rev_involutive in Hn.
    simpl rev at 2 in Hn. apply lstrip_nil_iff in Hn.
    rewrite forallb_rev in Hn. simpl in Hn.
    apply lstrip_head in E. rewrite E in Hn. discriminate.
  - intros H. apply lstrip_nil_iff in H. rewrite H. reflexivity.
Qed.

(** X2 (line 155): the allowed origins are the pieces of the variable
    between commas, or the single origin [*] when the variable is not set.
    There is always at least one origin, one more than there are commas;
    no origin holds a comma; and joining them with commas gives the
    variable back, so nothing is trimmed or dropped. *)
Theorem allow_origins_split (env : option str) :
  allow_origins None = [u "*"]
  /\ allow_origins env <> []
  /\ (forall v, env = Some v ->
        List.length (allow_origins env) = S (count_occ N.eq_dec v 44%N)
        /\ Str.join 44 (allow_origins env) = v)
  /\ (forall origin, In origin (allow_origins env) -> ~ In 44%N origin).
Proof.
  split; [reflexivity|]. split; [apply split_not_nil|]. split.
  - intros v ->. unfold allow_origins. split;
      [apply split_count | apply join_split].
  - intros origin H. unfold allow_origins in H.
    now apply split_pieces in H.
Qed.

(* ================================================================== *)
(** ** More on the filename *)

Lemma replace_no_old old new s : old <> new -> ~ In old (Str.replace old new s).
Proof.
  intros Hne. induction s as [|c s IH]; simpl; [tauto|].
  intros [H | H]; [|auto].
  destruct (c =? old)%N eqn:E; [congruence|]. apply N.eqb_neq in E. congruence.
Qed.

(** X3 (line 146): the filename never holds a space, it is four characters
    longer than the title, and it ends in [.pdf]. *)
Theorem filename_has_no_space (t : str) :
  ~ In 32%N (filename t)
  /\ List.length (filename t) = List.length t + 4
  /\ skipn (List.length t) (filename t) = u ".pdf".
Proof.
  unfold filename. split; [|split].
  - intros H. apply in_app_or in H. destruct H as [H | H].
    + revert H. apply replace_no_old. discriminate.
    + vm_compute in H. intuition discriminate.
  - rewrite length_app. unfold Str.replace. now rewrite length_map.
  - replace (List.length t) with (List.length (Str.replace 32 95 t))
      by (unfold Str.replace; apply length_map).
    rewrite skipn_app, skipn_all, Nat.sub_diag. reflexivity.
Qed.

Lemma replace_space_eq (a b : N) :
  (if (a =? 32)%N then 95%N else a) = (if (b =? 32)%N then 95%N else b)
  <-> a = b \/ ((a = 32 \/ a = 95) /\ (b = 32 \/ b = 95))%N.
Proof.
  destruct (N.eqb_spec a 32) as [-> | Ha];
    destruct (N.eqb_spec b 32) as [-> | Hb].
  - tauto.
  - split; [intros <-; right; tauto|].
    intros [H | [_ [H | H]]]; congruence.
  - split; [intros ->; right; tauto|].
    intros [H | [[H | H] _]]; congruence.
  - split; [tauto|]. intros [H | [[H | H] [H' | H']]]; congruence.
Qed.

(** X4 (line 146): two titles get the same filename exactly when they
    have the same length and agree character by character, a space and an
    underscore counting as the same character: so a title with a space
    and the title with an underscore in its place collide, and no other
    two titles do. *)
Theorem filename_collisions (t1 t2 : str) :
  filename t1 = filename t2
  <-> Forall2 (fun a b => a = b \/ ((a = 32 \/ a = 95) /\ (b = 32 \/ b = 95)))%N
              t1 t2.
Proof.
  unfold filename, Str.replace. split.
  - intros H. apply app_inv_tail in H. revert t2 H.
    induction t1 as [|a t1 IH]; intros [|b t2] H; try discriminate H.
    + constructor.
    + cbn [map] in H. injection H as Hab H.
      constructor; [now apply replace_space_eq | now apply IH].
  - intros H. f_equal.
    induction H as [|a b t1 t2 Hab _ IH]; [reflexivity|].
    cbn [map]. f_equal; [now apply replace_space_eq | exact IH].
Qed.

(* ================================================================== *)
(** ** The branches of the dispatch *)

Section Branches.

Context {L : Libraries}.

Lemma content_blocks_docs data story :
  type data = u "docs" ->
  content_blocks data story = docs_loop (Str.split 10 (content data)) story.
Proof. unfold content_blocks. now intros ->. Qed.

Lemma content_blocks_agenda data story :
  type data = u "agenda" ->
  content_blocks data story =
  try_except
    (bind (agenda_table (content data)) (fun table => Ok (story ++ [table])))
    (bind (Paragraph_new (content data) Normal)
          (fun p => Ok (story ++ [p]))).
Proof. unfold content_blocks. now intros ->. Qed.

Lemma content_blocks_planilhas data story :
  type data = u "planilhas" ->
  content_blocks data story =
  try_except
    (planilhas_body (content data) story)
    (bind (Paragraph_new (content data) Normal)
          (fun p => Ok (story ++ [p]))).
Proof. unfold content_blocks. now intros ->. Qed.

Lemma mapM_agenda_row_Ok items : forall rows,
  mapM agenda_row items = Ok rows -> Forall2 row_of_record items rows.
Proof.
  induction items as [|item items IH]; intros rows H.
  - injection H as <-. constructor.
  - cbn [mapM] in H. apply bind_Ok in H. destruct H as (row & Hr & H).
    apply bind_Ok in H. destruct H as (rows' & Hm & [= <-]).
    constructor; [|now apply IH].
    destruct item; try discriminate Hr.
    rewrite agenda_row_record in Hr. injection Hr as <-. now exists d.
Qed.

(** Rows that were made always give a table. *)
Lemma agenda_table_of_agenda_rows c rows :
  agenda_rows c = Ok rows ->
  agenda_table c
  = Ok (Table (PyList (agenda_header :: rows)) (Some agenda_colWidths)
              agenda_style).
Proof.
  intros H. unfold agenda_table. rewrite H. cbn [bind].
  unfold agenda_rows in H. apply bind_Ok in H. destruct H as (v & _ & H).
  apply bind_Ok in H. destruct H as (its & _ & H).
  apply mapM_agenda_row_Ok in H.
  rewrite Table_new_grid by (eapply records_make_grid; exact H).
  reflexivity.
Qed.

(** The third block of an agenda: the table of the rows, or the raw
    content when the rows could not be made. *)
Lemma agenda_blocks_cases data story story' :
  type data = u "agenda" ->
  content_blocks data story = Ok story' ->
  (exists rows,
      agenda_rows (content data) = Ok rows
      /\ story' = story ++ [Table (PyList (agenda_header :: rows))
                                  (Some agenda_colWidths) agenda_style])
  \/ ((exists e, agenda_rows (content data) = Raise e)
      /\ Paragraph_accepts (content data) = true
      /\ story' = story ++ [Paragraph (content data) Normal]).
Proof.
  intros Hty H. rewrite content_blocks_agenda in H by exact Hty.
  destruct (agenda_rows (content data)) as [rows|e] eqn:Er.
  - left. exists rows. split; [reflexivity|].
    rewrite (agenda_table_of_agenda_rows _ Er) in H.
    cbn [bind try_except] in H. now injection H as <-.
  - right. split; [eauto|].
    rewrite (agenda_table_raises (L := L) _ Er) in H.
    cbn [bind try_except] in H. apply bind_Ok in H.
    destruct H as (p & Hp & [= <-]). apply Paragraph_new_Ok in Hp.
    destruct Hp as [-> Ha]. auto.
Qed.

(** The blocks of a spreadsheet: nothing, the table of the parsed value,
    or the raw content. *)
Lemma planilhas_blocks_cases data story story' :
  type data = u "planilhas" ->
  content_blocks data story = Ok story' ->
  (exists rows,
      Json.loads (content data) = Ok rows /\ truthy rows = false
      /\ story' = story)
  \/ (exists rows,
         Json.loads (content data) = Ok rows /\ truthy rows = true
         /\ story' = story ++ [Table rows None planilhas_style])
  \/ ((exists e, planilhas_body (content data) story = Raise e)
      /\ Paragraph_accepts (content data) = true
      /\ story' = story ++ [Paragraph (content data) Normal]).
Proof.
  intros Hty H. rewrite content_blocks_planilhas in H by exact Hty.
  destruct (planilhas_body (content data) story) as [s|e] eqn:Eb.
  - cbn [try_except] in H. injection H as <-.
    unfold planilhas_body in Eb. apply bind_Ok in Eb.
    destruct Eb as (rows & Hl & Eb). destruct (truthy rows) eqn:Et.
    + right. left. exists rows. split; [exact Hl|]. split; [exact Et|].
      apply bind_Ok in Eb. destruct Eb as (t & Ht & [= <-]).
      unfold Table_new in Ht.
      destruct (is_grid rows None || Table_accepts rows None);
        [|discriminate]. now injection Ht as <-.
    + left. exists rows. injection Eb as <-. auto.
  - right. right. split; [eauto|]. cbn [try_except] in H.
    apply bind_Ok in H. destruct H as (p & Hp & [= <-]).
    apply Paragraph_new_Ok in Hp. destruct Hp as [-> Ha]. auto.
Qed.

(** The docs loop keeps what is in the story and adds only paragraphs
    whose text was accepted, and spacers. *)
Lemma docs_loop_accepted lines : forall story story',
  docs_loop lines story = Ok story' ->
  forallb (text_accepted L) story = true ->
  forallb (text_accepted L) story' = true.
Proof.
  induction lines as [|line rest IH]; cbn [docs_loop];
    intros story story' H Hs.
  - now injection H as <-.
  - destruct (Str.truthy (Str.strip line)); [|now apply (IH story)].
    apply bind_Ok in H. destruct H as (p & Hp & H).
    apply Paragraph_new_Ok in Hp. destruct Hp as [-> Ha].
    apply (IH _ _ H). rewrite !forallb_app, Hs. simpl. now rewrite Ha.
Qed.

(** The docs loop raises at the first line that is not blank and whose
    text is refused. *)
Lemma docs_loop_refused lines : forall story line,
  In line lines ->
  Str.truthy (Str.strip line) = true ->
  Paragraph_accepts line = false ->
  docs_loop lines story = Raise ValueError.
Proof.
  induction lines as [|l rest IH]; intros story line Hin Hnb Hr; [destruct Hin|].
  cbn [docs_loop]. destruct Hin as [-> | Hin].
  - rewrite Hnb. unfold Paragraph_new. now rewrite Hr.
  - destruct (Str.truthy (Str.strip l)); [|now apply (IH _ line)].
    unfold Paragraph_new. destruct (Paragraph_accepts l); [|reflexivity].
    cbn [bind]. now apply (IH _ line).
Qed.

Lemma docs_loop_app lines : forall story,
  docs_loop lines story
  = bind (docs_loop lines []) (fun rest => Ok (story ++ rest)).
Proof.
  induction lines as [|line rest IH]; intros story; cbn [docs_loop].
  - cbn [bind]. now rewrite app_nil_r.
  - destruct (Str.truthy (Str.strip line)); [|apply IH].
    unfold Paragraph_new. destruct (Paragraph_accepts line); [|reflexivity].
    cbn [bind]. rewrite (IH ((story ++ _) ++ _)), (IH (([] ++ _) ++ _)).
    destruct (docs_loop rest []) as [r|e]; [|reflexivity].
    cbn [bind app]. now rewrite <- !app_assoc.
Qed.

(** The content blocks are appended to the story, and they are the same
    whatever the story holds. *)
Lemma content_blocks_app data story :
  content_blocks data story
  = bind (content_blocks data []) (fun rest => Ok (story ++ rest)).
Proof.
  unfold content_blocks.
  destruct (Str.eqb (type data) (u "docs")); [apply docs_loop_app|].
  destruct (Str.eqb (type data) (u "agenda")).
  { destruct (agenda_table (content data)) as [t|e]; [reflexivity|].
    cbn [bind try_except]. unfold Paragraph_new.
    now destruct (Paragraph_accepts (content data)). }
  destruct (Str.eqb (type data) (u "planilhas")).
  { unfold planilhas_body.
    destruct (Json.loads (content data)) as [rows|e]; cbn [bind try_except].
    - destruct (truthy rows).
      + destruct (Table_new rows None) as [t|e]; [reflexivity|].
        cbn [bind try_except]. unfold Paragraph_new.
        now destruct (Paragraph_accepts (content data)).
      + cbn [try_except bind]. now rewrite app_nil_r.
    - unfold Paragraph_new.
      now destruct (Paragraph_accepts (content data)). }
  cbn [bind]. now rewrite app_nil_r.
Qed.

Lemma content_blocks_accepted data story story' :
  content_blocks data story = Ok story' ->
  forallb (text_accepted L) story = true ->
  forallb (text_accepted L) story' = true.
Proof.
  unfold content_blocks.
  assert (Hfb : bind (Paragraph_new (content data) Normal)
                     (fun p => Ok (story ++ [p])) = Ok story' ->
                forallb (text_accepted L) story = true ->
                forallb (text_accepted L) story' = true).
  { intros H Hs. apply bind_Ok in H. destruct H as (p & Hp & [= <-]).
    apply Paragraph_new_Ok in Hp. destruct Hp as [-> Ha].
    rewrite forallb_app, Hs. simpl. now rewrite Ha. }
  assert (Htab : forall rows w st t,
             Table_new rows w = Ok t ->
             forallb (text_accepted L) story = true ->
             forallb (text_accepted L) (story ++ [setStyle t st]) = true).
  { intros rows w st t Ht Hs. unfold Table_new in Ht.
    destruct (is_grid rows w || Table_accepts rows w); [|discriminate].
    injection Ht as <-. rewrite forallb_app, Hs. reflexivity. }
  destruct (Str.eqb (type data) (u "docs")); [apply docs_loop_accepted|].
  destruct (Str.eqb (type data) (u "agenda")).
  { intros H. apply try_except_Ok in H. destruct H as [H | [_ H]];
      [|now apply Hfb].
    apply bind_Ok in H. destruct H as (t & Ht & [= <-]).
    unfold agenda_table in Ht. apply bind_Ok in Ht.
    destruct Ht as (rows & _ & Ht). apply bind_Ok in Ht.
    destruct Ht as (t0 & Ht0 & [= <-]). now apply (Htab _ _ _ _ Ht0). }
  destruct (Str.eqb (type data) (u "planilhas")).
  { intros H. apply try_except_Ok in H. destruct H as [H | [_ H]];
      [|now apply Hfb].
    unfold planilhas_body in H. apply bind_Ok in H.
    destruct H as (rows & _ & H). destruct (truthy rows).
    - apply bind_Ok in H. destruct H as (t & Ht & [= <-]).
      now apply (Htab _ _ _ _ Ht).
    - now injection H as <-. }
  now intros [= <-].
Qed.

End Branches.

(* ================================================================== *)
(** ** Spreadsheets, beyond the empty one *)




(** X6 (lines 120-136): for type planilhas and a content that is not
    JSON, the exception of [json.loads] is caught and the story is the
    title blocks followed by the raw content as one paragraph in the
    Normal style; the response is returned when the libraries take that
    story. *)
Theorem planilhas_fallback (L : Libraries) (data : PDFContentModel)
    (e : exn) :
  type data = u "planilhas" ->
  Json.loads (content data) = Raise e ->
  libraries_accept L
    [Paragraph (title data) title_style; Spacer 1 12;
     Paragraph (content data) Normal] (title data) = true ->
  generate_pdf L data
  = Ok (response [Paragraph (title data) title_style; Spacer 1 12;
                  Paragraph (content data) Normal] (title data)).
Proof.
  intros Hty Hr Hacc. unfold libraries_accept in Hacc.
  apply andb_true_iff in Hacc. destruct Hacc as [Hacc Hh].
  apply andb_true_iff in Hacc. destruct Hacc as [Hp Hb].
  cbn [forallb] in Hp.
  apply andb_true_iff in Hp. destruct Hp as [Ht Hp].
  apply andb_true_iff in Hp. destruct Hp as [_ Hp].
  apply andb_true_iff in Hp. destruct Hp as [Hc _].
  apply generate_pdf_returns; try assumption.
  rewrite content_blocks_planilhas by exact Hty.
  unfold planilhas_body. rewrite Hr. cbn [bind try_except].
  unfold Paragraph_new. rewrite Hc. reflexivity.
Qed.

Lemma planilhas_fallback_witness :
  generate_pdf no_markup
    {| title := u "Contas"; content := u "Luz; 120,5"; type := u "planilhas" |}
  = Ok (response [Paragraph (u "Contas") title_style; Spacer 1 12;
                  Paragraph (u "Luz; 120,5") Normal] (u "Contas")).
Proof.
  apply (@planilhas_fallback no_markup
           {| title := u "Contas"; content := u "Luz; 120,5";
              type := u "planilhas" |} JSONDecodeError).
  - reflexivity.
  - vm_compute. reflexivity.
  - vm_compute. reflexivity.
Defined.

(** X7 (lines 118-136): for type planilhas a story has one of three
    shapes and no other: the title blocks alone, when the parsed value is
    false; the title blocks and a table of the parsed value, unchanged,
    when it is true; the title blocks and the raw content as a paragraph.
    A table and the fallback paragraph never come together. *)
Theorem planilhas_story_shapes (L : Libraries) (data : PDFContentModel)
    (resp : Response) :
  type data = u "planilhas" ->
  generate_pdf L data = Ok resp ->
  (exists rows,
      Json.loads (content data) = Ok rows /\ truthy rows = false
      /\ body resp = [Paragraph (title data) title_style; Spacer 1 12])
  \/ (exists rows,
         Json.loads (content data) = Ok rows /\ truthy rows = true
         /\ body resp = [Paragraph (title data) title_style; Spacer 1 12;
                         Table rows None planilhas_style])
  \/ body resp = [Paragraph (title data) title_style; Spacer 1 12;
                  Paragraph (content data) Normal].
Proof.
  intros Hty H. apply generate_pdf_inv in H.
  destruct H as (story & Hs & -> & _).
  apply planilhas_blocks_cases in Hs; [|exact Hty].
  destruct Hs as [(rows & Hl & Hf & ->)
                 | [(rows & Hl & Ht & ->) | (_ & _ & ->)]].
  - left. exists rows. auto.
  - right. left. exists rows. auto.
  - right. right. reflexivity.
Qed.

Lemma planilhas_story_shapes_witness :
  exists resp,
    generate_pdf lenient
      {| title := u "Contas"; content := Json.js "{'Luz': 120}";
         type := u "planilhas" |} = Ok resp
    /\ ((exists rows,
            Json.loads (Json.js "{'Luz': 120}") = Ok rows
            /\ truthy rows = false
            /\ body resp = [Paragraph (u "Contas") title_style; Spacer 1 12])
        \/ (exists rows,
               Json.loads (Json.js "{'Luz': 120}") = Ok rows
               /\ truthy rows = true
               /\ body resp = [Paragraph (u "Contas") title_style;
                               Spacer 1 12;
                               Table rows None planilhas_style])
        \/ body resp = [Paragraph (u "Contas") title_style; Spacer 1 12;
                        Paragraph (Json.js "{'Luz': 120}") Normal]).
Proof.
  eexists. split.
  - vm_compute. reflexivity.
  - apply (@planilhas_story_shapes lenient
             {| title := u "Contas"; content := Json.js "{'Luz': 120}";
                type := u "planilhas" |}).
    + reflexivity.
    + vm_compute. reflexivity.
Defined.

(* ================================================================== *)
(** ** Agendas, beyond the list of records *)

(** X8 (lines 90-116): for type agenda a story always has exactly three
    blocks, the title paragraph, its spacer and then either the table of
    the rows that were made, under the fixed header, or, when making the
    rows raised, the raw content as a paragraph; never both and never
    neither. *)
Theorem agenda_story_shapes (L : Libraries) (data : PDFContentModel)
    (resp : Response) :
  type data = u "agenda" ->
  generate_pdf L data = Ok resp ->
  (exists rows,
      agenda_rows (content data) = Ok rows
      /\ body resp =
           [Paragraph (title data) title_style; Spacer 1 12;
            Table (PyList (agenda_header :: rows)) (Some agenda_colWidths)
                  agenda_style])
  \/ ((exists e, agenda_rows (content data) = Raise e)
      /\ body resp = [Paragraph (title data) title_style; Spacer 1 12;
                      Paragraph (content data) Normal]).
Proof.
  intros Hty H. apply generate_pdf_inv in H.
  destruct H as (story & Hs & -> & _).
  apply agenda_blocks_cases in Hs; [|exact Hty].
  destruct Hs as [(rows & Hr & ->) | (He & _ & ->)].
  - left. exists rows. auto.
  - right. auto.
Qed.

Lemma agenda_story_shapes_witness :
  exists resp,
    generate_pdf lenient
      {| title := u "Agenda"; content := u "amanhã"; type := u "agenda" |}
    = Ok resp
    /\ ((exists rows,
            agenda_rows (u "amanhã") = Ok rows
            /\ body resp =
                 [Paragraph (u "Agenda") title_style; Spacer 1 12;
                  Table (PyList (agenda_header :: rows))
                        (Some agenda_colWidths) agenda_style])
        \/ ((exists e, agenda_rows (u "amanhã") = Raise e)
            /\ body resp = [Paragraph (u "Agenda") title_style; Spacer 1 12;
                            Paragraph (u "amanhã") Normal])).
Proof.
  eexists. split.
  - vm_compute. reflexivity.
  - apply (@agenda_story_shapes lenient
             {| title := u "Agenda"; content := u "amanhã";
                type := u "agenda" |}).
    + reflexivity.
    + vm_compute. reflexivity.
Defined.

(** X9 (lines 93-114): for type agenda, when the parsed value has nothing
    to visit (an empty list, and just as well an empty object or an empty
    string), the loop makes no row and the table is the header row
    alone. *)
Theorem agenda_nothing_to_visit (L : Libraries) (data : PDFContentModel)
    (v : pyval) (resp : Response) :
  type data = u "agenda" ->
  Json.loads (content data) = Ok v ->
  py_iter v = Ok [] ->
  generate_pdf L data = Ok resp ->
  body resp =
    [Paragraph (title data) title_style; Spacer 1 12;
     Table (PyList [agenda_header]) (Some agenda_colWidths) agenda_style].
Proof.
  intros Hty Hl Hi H. apply generate_pdf_inv in H.
  destruct H as (story & Hs & -> & _).
  assert (Hr : agenda_rows (content data) = Ok []).
  { unfold agenda_rows. rewrite Hl. cbn [bind]. rewrite Hi. reflexivity. }
  rewrite content_blocks_agenda in Hs by exact Hty.
  rewrite (agenda_table_of_agenda_rows _ Hr) in Hs.
  cbn [bind try_except] in Hs. now injection Hs as <-.
Qed.

Lemma agenda_nothing_to_visit_witness :
  body (response
          [Paragraph (u "Agenda") title_style; Spacer 1 12;
           Table (PyList [agenda_header]) (Some agenda_colWidths)
                 agenda_style] (u "Agenda"))
  = [Paragraph (u "Agenda") title_style; Spacer 1 12;
     Table (PyList [agenda_header]) (Some agenda_colWidths) agenda_style].
Proof.
  apply (@agenda_nothing_to_visit lenient
           {| title := u "Agenda"; content := u " [ ] "; type := u "agenda" |}
           (PyList [])).
  - reflexivity.
  - vm_compute. reflexivity.
  - reflexivity.
  - vm_compute. reflexivity.
Defined.

Lemma record_row_labelled d : labelled_row (record_row d).
Proof.
  unfold labelled_row, record_row. do 3 eexists.
  exists (if truthy (dict_get d (u "completed") PyNone)
          then u "Concluído" else u "Pendente").
  split; [reflexivity|].
  destruct (truthy (dict_get d (u "completed") PyNone)); auto.
Qed.

Lemma rows_labelled items rows :
  Forall2 row_of_record items rows -> Forall labelled_row rows.
Proof.
  induction 1 as [|item row items rows (d & _ & ->) _ IH]; constructor;
    [apply record_row_labelled | exact IH].
Qed.

(** X10 (lines 94-103): the table of an agenda is always a grid of four
    columns with a width for each: under the header every row has four
    cells, and the fourth is one of the two labels, Concluído or
    Pendente. *)
Theorem agenda_table_is_labelled_grid (L : Libraries)
    (data : PDFContentModel) (resp : Response)
    (d : pyval) (w : option (list Z)) (st : list cmd) :
  type data = u "agenda" ->
  generate_pdf L data = Ok resp ->
  In (Table d w st) (body resp) ->
  is_grid d w = true
  /\ w = Some agenda_colWidths
  /\ exists rows, d = PyList (agenda_header :: rows)
                  /\ Forall labelled_row rows.
Proof.
  intros Hty H Hin. apply generate_pdf_inv in H.
  destruct H as (story & Hs & -> & _).
  apply agenda_blocks_cases in Hs; [|exact Hty].
  destruct Hs as [(rows & Hr & ->) | (_ & _ & ->)];
    cbn [body response title_blocks app] in Hin.
  - destruct Hin as [Hin | [Hin | [Hin | []]]]; try discriminate Hin.
    injection Hin as <- <- <-.
    unfold agenda_rows in Hr. apply bind_Ok in Hr.
    destruct Hr as (v & _ & Hr). apply bind_Ok in Hr.
    destruct Hr as (its & _ & Hr). apply mapM_agenda_row_Ok in Hr.
    split; [eapply records_make_grid; exact Hr|]. split; [reflexivity|].
    exists rows. split; [reflexivity | eapply rows_labelled; exact Hr].
  - destruct Hin as [Hin | [Hin | [Hin | []]]]; discriminate Hin.
Qed.

Lemma agenda_table_is_labelled_grid_witness :
  exists resp d st,
    generate_pdf lenient two_records_request = Ok resp
    /\ In (Table d (Some agenda_colWidths) st) (body resp)
    /\ is_grid d (Some agenda_colWidths) = true
    /\ exists rows, d = PyList (agenda_header :: rows)
                    /\ Forall labelled_row rows.
Proof.
  eexists. eexists. eexists. split; [vm_compute; reflexivity|].
  split; [right; right; left; reflexivity|].
  refine (let H := @agenda_table_is_labelled_grid lenient two_records_request
                     _ _ _ _ eq_refl _ _ in
          conj (proj1 H) (proj2 (proj2 H))).
  - vm_compute. reflexivity.
  - right. right. left. reflexivity.
Defined.

(* ================================================================== *)
(** ** Text documents, their edges *)

Lemma whitespace_is_blank line :
  (forall c, In c line -> Str.isspace c = true) ->
  Str.truthy (Str.strip line) = false.
Proof.
  intros H. unfold Str.strip, Str.rstrip.
  assert (Hl : Str.lstrip line = [])
    by (apply lstrip_nil_iff, forallb_forall; exact H).
  now rewrite Hl.
Qed.

Lemma filter_none {A} (f : A -> bool) l :
  (forall a, In a l -> f a = false) -> filter f l = [].
Proof.
  induction l as [|a l IH]; intros H; [reflexivity|]. simpl.
  rewrite (H a) by now left. apply IH. intros b Hb. apply H. now right.
Qed.

(** X11 (lines 82-88): for type docs and a content made of white space
    only (the empty content, blank lines, spaces, tabs), no line passes
    the test and the story is the title blocks alone. *)
Theorem docs_blank_content_title_only (L : Libraries)
    (data : PDFContentModel) (resp : Response) :
  type data = u "docs" ->
  (forall c, In c (content data) -> Str.isspace c = true) ->
  generate_pdf L data = Ok resp ->
  body resp = [Paragraph (title data) title_style; Spacer 1 12].
Proof.
  intros Hty Hws H. apply generate_pdf_inv in H.
  destruct H as (story & Hs & -> & _).
  rewrite content_blocks_docs in Hs by exact Hty.
  apply docs_loop_Ok in Hs. subst story.
  rewrite filter_none; [reflexivity|].
  intros line Hl. apply whitespace_is_blank. intros c Hc.
  apply Hws. apply (split_pieces 10 (content data) line Hl). exact Hc.
Qed.

Lemma docs_blank_content_title_only_witness :
  body (response (title_blocks (u "Notas")) (u "Notas"))
  = [Paragraph (u "Notas") title_style; Spacer 1 12].
Proof.
  apply (@docs_blank_content_title_only lenient
           {| title := u "Notas";
              content := Str.join 10 [u "  "; []; [9%N; 160%N]];
              type := u "docs" |}).
  - reflexivity.
  - intros c Hc. vm_compute in Hc.
    repeat (destruct Hc as [<- | Hc]; [reflexivity|]). destruct Hc.
  - vm_compute. reflexivity.
Defined.

(** X12 (lines 85-87): every content paragraph of a docs story is in the
    Normal style and its text is one of the lines of the content, taken
    as it is and not stripped; the line is not blank and holds no newline
    character. *)
Theorem docs_paragraphs_are_lines (L : Libraries) (data : PDFContentModel)
    (resp : Response) (text : str) (st : style) :
  type data = u "docs" ->
  generate_pdf L data = Ok resp ->
  In (Paragraph text st) (skipn 2 (body resp)) ->
  st = Normal
  /\ In text (Str.split 10 (content data))
  /\ Str.truthy (Str.strip text) = true
  /\ ~ In 10%N text.
Proof.
  intros Hty H Hin. apply generate_pdf_inv in H.
  destruct H as (story & Hs & -> & _).
  rewrite content_blocks_docs in Hs by exact Hty.
  apply docs_loop_Ok in Hs. subst story.
  cbn [body response title_blocks app skipn] in Hin.
  apply in_flat_map in Hin. destruct Hin as (line & Hl & Hp).
  apply filter_In in Hl. destruct Hl as [Hl Hnb].
  destruct Hp as [Hp | [Hp | []]]; [|discriminate Hp].
  injection Hp as <- <-.
  split; [reflexivity|]. split; [exact Hl|]. split; [exact Hnb|].
  now apply (split_pieces 10 (content data) line).
Qed.

Lemma docs_paragraphs_are_lines_witness :
  Normal = Normal
  /\ In (u " dois ") (Str.split 10 five_lines)
  /\ Str.truthy (Str.strip (u " dois ")) = true
  /\ ~ In 10%N (u " dois ").
Proof.
  apply (@docs_paragraphs_are_lines lenient
           {| title := u "Notas"; content := five_lines; type := u "docs" |}
           (response
              (title_blocks (u "Notas")
               ++ [Paragraph (u "um") Normal; Spacer 1 12;
                   Paragraph (u " dois ") Normal; Spacer 1 12])
              (u "Notas"))).
  - reflexivity.
  - vm_compute. reflexivity.
  - vm_compute. right. right. left. reflexivity.
Defined.

(* ================================================================== *)
(** ** What the handler lets through *)

(** X13 (lines 85-88): the paragraphs of a docs content are made outside
    any [try]: one line that is not blank and that the paragraph parser
    refuses loses the whole document, whatever the other lines are. *)
Theorem docs_refused_line_raises (L : Libraries) (data : PDFContentModel)
    (line : str) :
  type data = u "docs" ->
  In line (Str.split 10 (content data)) ->
  Str.truthy (Str.strip line) = true ->
  Paragraph_accepts line = false ->
  generate_pdf L data = Raise ValueError.
Proof.
  intros Hty Hin Hnb Hr. unfold generate_pdf, Paragraph_new.
  destruct (Paragraph_accepts (title data)); [|reflexivity].
  cbn [bind app]. rewrite content_blocks_docs by exact Hty.
  now rewrite (docs_loop_refused _ _ line Hin Hnb Hr).
Qed.

Lemma docs_refused_line_raises_witness :
  generate_pdf no_markup
    {| title := u "Notas";
       content := Str.join 10 [u "um"; u "2 < 3"; u "dois"];
       type := u "docs" |}
  = Raise ValueError.
Proof.
  apply (@docs_refused_line_raises no_markup
           {| title := u "Notas";
              content := Str.join 10 [u "um"; u "2 < 3"; u "dois"];
              type := u "docs" |} (u "2 < 3")).
  - reflexivity.
  - vm_compute. right. left. reflexivity.
  - reflexivity.
  - reflexivity.
Defined.

(** X14 (lines 115-116): the paragraph of the agenda fallback is made in
    the [except] clause itself: when making the rows raises and the
    paragraph parser refuses the raw content, the handler raises. *)
Theorem agenda_fallback_refused_raises (L : Libraries)
    (data : PDFContentModel) (e : exn) :
  type data = u "agenda" ->
  agenda_rows (content data) = Raise e ->
  Paragraph_accepts (content data) = false ->
  generate_pdf L data = Raise ValueError.
Proof.
  intros Hty Hr Hc. unfold generate_pdf, Paragraph_new.
  destruct (Paragraph_accepts (title data)); [|reflexivity].
  cbn [bind app]. rewrite content_blocks_agenda by exact Hty.
  rewrite (agenda_table_raises (L := L) _ Hr). cbn [bind try_except].
  unfold Paragraph_new. now rewrite Hc.
Qed.

Lemma agenda_fallback_refused_raises_witness :
  generate_pdf no_markup
    {| title := u "Agenda"; content := u "<i>amanhã"; type := u "agenda" |}
  = Raise ValueError.
Proof.
  apply (@agenda_fallback_refused_raises no_markup
           {| title := u "Agenda"; content := u "<i>amanhã";
              type := u "agenda" |} JSONDecodeError).
  - reflexivity.
  - vm_compute. reflexivity.
  - reflexivity.
Defined.

(** X15 (lines 78-147): a response is returned only after the libraries
    took everything in it: the text of every paragraph of its story, the
    story as a whole, and the header. *)
Theorem response_was_accepted (L : Libraries) (data : PDFContentModel)
    (resp : Response) :
  generate_pdf L data = Ok resp ->
  libraries_accept L (body resp) (title data) = true.
Proof.
  intros H. apply generate_pdf_inv in H.
  destruct H as (story & Hs & -> & Ht & Hb & Hh).
  unfold libraries_accept. cbn [body response]. rewrite Hb, Hh.
  rewrite !andb_true_r.
  apply (content_blocks_accepted _ _ Hs). simpl. now rewrite Ht.
Qed.

Lemma response_was_accepted_witness :
  libraries_accept no_markup
    (title_blocks (u "Notas")
     ++ [Paragraph (u "um") Normal; Spacer 1 12;
         Paragraph (u " dois ") Normal; Spacer 1 12])
    (u "Notas") = true.
Proof.
  apply (@response_was_accepted no_markup
           {| title := u "Notas"; content := five_lines; type := u "docs" |}
           (response
              (title_blocks (u "Notas")
               ++ [Paragraph (u "um") Normal; Spacer 1 12;
                   Paragraph (u " dois ") Normal; Spacer 1 12])
              (u "Notas"))).
  vm_compute. reflexivity.
Defined.

(* ================================================================== *)
(** ** The story as a whole *)

(** X16 (lines 78-136): the title reaches the first block only.  Two
    requests of the same type and content get the same blocks after the
    title paragraph and its spacer. *)
Theorem content_independent_of_title (L : Libraries)
    (d1 d2 : PDFContentModel) (r1 r2 : Response) :
  type d1 = type d2 ->
  content d1 = content d2 ->
  generate_pdf L d1 = Ok r1 ->
  generate_pdf L d2 = Ok r2 ->
  skipn 2 (body r1) = skipn 2 (body r2).
Proof.
  intros Hty Hc H1 H2.
  apply generate_pdf_inv in H1. destruct H1 as (s1 & Hs1 & -> & _).
  apply generate_pdf_inv in H2. destruct H2 as (s2 & Hs2 & -> & _).
  rewrite content_blocks_app in Hs1, Hs2.
  assert (E : @content_blocks L d1 [] = @content_blocks L d2 [])
    by (unfold content_blocks; now rewrite Hty, Hc).
  rewrite E in Hs1.
  destruct (content_blocks d2 []) as [rest|e]; [|discriminate].
  cbn [bind] in Hs1, Hs2. injection Hs1 as <-. injection Hs2 as <-.
  reflexivity.
Qed.

Lemma content_independent_of_title_witness :
  skipn 2 (body (response
                   (title_blocks (u "Notas")
                    ++ [Paragraph (u "um") Normal; Spacer 1 12;
                        Paragraph (u " dois ") Normal; Spacer 1 12])
                   (u "Notas")))
  = skipn 2 (body (response
                     (title_blocks (u "Outro título")
                      ++ [Paragraph (u "um") Normal; Spacer 1 12;
                          Paragraph (u " dois ") Normal; Spacer 1 12])
                     (u "Outro título"))).
Proof.
  apply (@content_independent_of_title lenient
           {| title := u "Notas"; content := five_lines; type := u "docs" |}
           {| title := u "Outro título"; content := five_lines;
              type := u "docs" |}).
  - reflexivity.
  - reflexivity.
  - vm_compute. reflexivity.
  - vm_compute. reflexivity.
Defined.

Lemma docs_blocks_no_table lines :
  filter is_table
    (flat_map (fun l => [Paragraph l Normal; Spacer 1 12]) lines) = [].
Proof. induction lines as [|l ls IH]; simpl; [reflexivity | exact IH]. Qed.

Lemma content_blocks_tables (L : Libraries) data rest :
  content_blocks data [] = Ok rest ->
  List.length (filter is_table rest) <= 1
  /\ (type data = u "docs" -> filter is_table rest = []).
Proof.
  intros H.
  destruct (Str.eqb (type data) (u "docs")) eqn:E1.
  { apply eqb_eq in E1. rewrite content_blocks_docs in H by exact E1.
    apply docs_loop_Ok in H. subst rest. cbn [app].
    rewrite docs_blocks_no_table. split; [simpl; lia | reflexivity]. }
  apply eqb_neq in E1. split; [|intros Hd; contradiction].
  destruct (Str.eqb (type data) (u "agenda")) eqn:E2.
  { apply eqb_eq in E2. apply agenda_blocks_cases in H; [|exact E2].
    destruct H as [(rows & _ & ->) | (_ & _ & ->)]; simpl; lia. }
  destruct (Str.eqb (type data) (u "planilhas")) eqn:E3.
  { apply eqb_eq in E3. apply planilhas_blocks_cases in H; [|exact E3].
    destruct H as [(rows & _ & _ & ->) | [(rows & _ & _ & ->) | (_ & _ & ->)]];
      simpl; lia. }
  apply eqb_neq in E2, E3.
  rewrite content_blocks_other in H by assumption.
  injection H as <-. simpl. lia.
Qed.

(** X17 (lines 78-136): a story never holds more than one table, and the
    story of a docs request holds none. *)
Theorem at_most_one_table (L : Libraries) (data : PDFContentModel)
    (resp : Response) :
  generate_pdf L data = Ok resp ->
  List.length (filter is_table (body resp)) <= 1
  /\ (type data = u "docs" -> filter is_table (body resp) = []).
Proof.
  intros H. apply generate_pdf_inv in H.
  destruct H as (story & Hs & -> & _).
  rewrite content_blocks_app in Hs.
  destruct (content_blocks data []) as [rest|e] eqn:Er; [|discriminate].
  cbn [bind] in Hs. injection Hs as <-.
  cbn [body response title_blocks app filter is_table].
  exact (@content_blocks_tables L data rest Er).
Qed.

Lemma at_most_one_table_witness :
  exists resp,
    generate_pdf lenient two_records_request = Ok resp
    /\ List.length (filter is_table (body resp)) <= 1.
Proof.
  eexists. split.
  - vm_compute. reflexivity.
  - apply (@at_most_one_table lenient two_records_request).
    vm_compute. reflexivity.
Defined.

(** X18 (lines 90-116): an agenda story ends in the raw content instead
    of a table exactly when [json.loads] raises on the content, or the
    parsed value cannot be iterated, or one of the items visited is not a
    dict.  The shape of the content is checked in no other way. *)
Theorem agenda_falls_back_iff (L : Libraries) (data : PDFContentModel)
    (resp : Response) :
  type data = u "agenda" ->
  generate_pdf L data = Ok resp ->
  (body resp = [Paragraph (title data) title_style; Spacer 1 12;
                Paragraph (content data) Normal]
   <-> match Json.loads (content data) with
       | Raise _ => True
       | Ok v =>
         match py_iter v with
         | Raise _ => True
         | Ok its => forallb is_dict its = false
         end
       end).
Proof.
  intros Hty H. apply generate_pdf_inv in H.
  destruct H as (story & Hs & -> & _).
  apply agenda_blocks_cases in Hs; [|exact Hty].
  rewrite <- agenda_rows_raises_iff.
  destruct Hs as [(rows & Hr & ->) | (He & _ & ->)].
  - split.
    + intros Hb. discriminate Hb.
    + intros [e He]. rewrite Hr in He. discriminate He.
  - split; [intros _; exact He | reflexivity].
Qed.

Lemma agenda_falls_back_iff_witness :
  exists resp,
    generate_pdf lenient
      {| title := u "Agenda"; content := Json.js "{'title': 'Aula'}";
         type := u "agenda" |} = Ok resp
    /\ (body resp = [Paragraph (u "Agenda") title_style; Spacer 1 12;
                     Paragraph (Json.js "{'title': 'Aula'}") Normal]
        <-> match Json.loads (Json.js "{'title': 'Aula'}") with
            | Raise _ => True
            | Ok v =>
              match py_iter v with
              | Raise _ => True
              | Ok its => forallb is_dict its = false
              end
            end).
Proof.
  eexists. split.
  - vm_compute. reflexivity.
  - apply (@agenda_falls_back_iff lenient
             {| title := u "Agenda"; content := Json.js "{'title': 'Aula'}";
                type := u "agenda" |}).
    + reflexivity.
    + vm_compute. reflexivity.
Defined.
